(** * OpenThread event and task worker threads (RIOT-OS, pkg/openthread/contrib)

    A shallow embedding of the OpenThread event thread and of the OpenThread
    task thread ([openthread_task_thread.c] and its event-thread sibling):
    the two worker threads that feed kernel messages into the
    single-threaded OpenThread stack.

    The C code is a sequence of calls into collaborators that live outside
    these two files (kernel IPC, mutexes, the radio driver, the OpenThread
    stack).  Such a call is modelled as an entry in a chronological trace
    together with the answer of an oracle [ext] that stands for the
    collaborator; the file statics, the objects reached through message
    pointers and the trace form the explicit state that is threaded through
    every function. *)

From stdpp Require Import gmap strings list.
From Stdlib Require Import ZArith Lia.

Open Scope Z_scope.

(** ** Kernel and driver types *)

(** [msg_t] of the kernel: the sender, a 16-bit tag and the payload union
    ([content.value] and [content.ptr] share one 32-bit word). *)
Record msg_t := { sender_pid : Z; type : Z; content : Z }.

(** [netdev_event_t], restricted to the two outcomes these files report. *)
Inductive netdev_event_t := NETDEV_EVENT_TX_NOACK | NETDEV_EVENT_TX_MEDIUM_BUSY.

(** [serial_msg_t] and [ot_job_t] of [ot.h]. *)
Record serial_msg_t := { buf : list Z; length : Z; serial_buffer_status : Z }.
Record ot_job_t := { command : string; arg : Z; answer : Z }.

(** Which of the two thread functions is handed to [thread_create]. *)
Inductive thread_entry := _openthread_event_thread_fn | _openthread_task_thread_fn.

(** ** Build configuration and header constants *)

(** The preprocessor symbols tested by [#ifdef] / [#if] in the two files. *)
Record build := {
  MODULE_OPENTHREAD_FTD : bool;
  MODULE_OPENTHREAD_NCP_FTD : bool;
  MODULE_OPENTHREAD_CLI_FTD : bool;
  MODULE_OPENTHREAD_CLI_MTD : bool;
  OPENTHREAD_ENABLE_DIAG : bool
}.

(** Constants of [ot.h], [thread.h] and [at86rf2xx.h].  The headers are not
    part of the two files, so their values are parameters.  [pending_irq_bits]
    is the width of the unsigned [pending_irq] counter of [at86rf2xx_t]. *)
Class ot_h := {
  OPENTHREAD_TASK_MSG_TYPE_EVENT : Z;
  OPENTHREAD_NETDEV_MSG_TYPE_EVENT : Z;
  OPENTHREAD_LINK_RETRY_TIMEOUT : Z;
  OPENTHREAD_NETDEV_MSG_TYPE_RADIO_BUSY : Z;
  OPENTHREAD_MILLITIMER_MSG_TYPE_EVENT : Z;
  OPENTHREAD_MICROTIMER_MSG_TYPE_EVENT : Z;
  OPENTHREAD_SERIAL_MSG_TYPE_EVENT : Z;
  OPENTHREAD_JOB_MSG_TYPE_EVENT : Z;
  OPENTHREAD_SERIAL_BUFFER_STATUS_FREE : Z;
  OPENTHREAD_PANID : Z;
  OPENTHREAD_CHANNEL : Z;
  THREAD_CREATE_STACKTEST : Z;
  pending_irq_bits : Z
}.

Definition EINVAL : Z := 22.
Definition OPENTHREAD_EVENT_QUEUE_LEN : Z := 16.
Definition OPENTHREAD_TASK_QUEUE_LEN : Z := 4.

(** ** Calls that leave the two files *)

(** One constructor per function called across the file boundary, with the
    arguments the code passes.  [netdev_isr] is
    [openthread_get_netdev()->driver->isr(openthread_get_netdev())];
    [msg_send ty target] sends a message of which only the tag is
    initialised; [msg_reply m value] answers message [m] with a reply of
    which only [content.value] is initialised. *)
Inductive call :=
| thread_create (stack stacksize priority flags : Z) (fn : thread_entry) (name : string)
| msg_init_queue (owner : thread_entry) (num : Z)
| xtimer_usleep (us : Z)
| otInstanceInitSingle
| otLinkSetPanId (inst panid : Z)
| otLinkSetChannel (inst channel : Z)
| otCliUartInit (inst : Z)
| otIp6SetEnabled (inst : Z) (enabled : bool)
| otThreadSetEnabled (inst : Z) (enabled : bool)
| otNcpInit (inst : Z)
| otCommissionerStart (inst : Z)
| diagInit (inst : Z)
| otTaskletsArePending (inst : Z)
| otTaskletsProcess (inst : Z)
| msg_send (ty : Z) (target : Z)
| msg_reply (m : msg_t) (value : Z)
| netdev_isr
| sent_pkt (inst : Z) (ev : netdev_event_t)
| otPlatAlarmMilliFired (inst : Z)
| otPlatAlarmMicroFired (inst : Z)
| wdt_clear
| otPlatUartReceived (bytes : list Z) (len : Z)
| ot_exec_command (inst : Z) (cmd : string) (arg answer : Z)
| irq_disable
| irq_restore (st : Z)
| openthread_coarse_lock_buffer_mutex
| openthread_coarse_unlock_buffer_mutex
| lock_radio_mutex
| unlock_radio_mutex.

(** Objects that other contexts read or write too; a store to one of them is
    visible in the trace. *)
Inductive shared_loc :=
| loc_otTaskPending
| loc_serial_buffer_status (p : Z)
| loc_pending_irq.

Inductive event :=
| Call (c : call) (ret : Z)
| Receive (m : msg_t)
| Store (l : shared_loc) (v : Z).

(** ** Results of running a piece of the program *)

Inductive outcome (A : Type) :=
| Done (a : A)
| Fault        (* a message pointer that references no object *)
| OutOfFuel.   (* the tasklet drain did not finish within the budget *)
Arguments Done {A} a.
Arguments Fault {A}.
Arguments OutOfFuel {A}.

(** ** Projections of a trace *)

(** Values written to [otTaskPending], in order. *)
Definition flag_stores (t : list event) : list Z :=
  omap (fun e => match e with Store loc_otTaskPending v => Some v | _ => None end) t.

(** Replies sent with [msg_reply]: requester's message and value. *)
Definition replies (t : list event) : list (msg_t * Z) :=
  omap (fun e => match e with Call (msg_reply m v) _ => Some (m, v) | _ => None end) t.

(** ** Program state and the state-and-error monad *)

Section Program.

(** [W] is the state of everything outside the two files and [ext] the
    oracle that answers a call: the returned integer (ignored for [void]
    functions) and the collaborator's next state.  What a collaborator does
    on its own during a call, such as the stack invoking
    [otTaskletsSignalPending] from inside [otTaskletsProcess], happens inside
    [ext]; that callback writes none of the statics (see below). *)
Context {W : Type} (ext : call -> W -> Z * W).
Context {K : ot_h} (cfg : build).

Record state := mkState {
  _event_pid : Z;                       (* static kernel_pid_t _event_pid *)
  sInstance : Z;                        (* static otInstance *sInstance *)
  _ot_task_pid : Z;                     (* static kernel_pid_t _ot_task_pid *)
  otTaskPending : bool;                 (* volatile bool otTaskPending *)
  serial_bufs : gmap Z serial_msg_t;    (* objects behind serial_msg_t pointers *)
  jobs : gmap Z ot_job_t;               (* objects behind ot_job_t pointers *)
  pending_irq : Z;                      (* pending_irq of the at86rf2xx device *)
  world : W;
  trace : list event
}.

Definition M (A : Type) : Type := state -> outcome (A * state).

Definition ret {A} (a : A) : M A := fun s => Done (a, s).

Definition bind {A B} (m : M A) (k : A -> M B) : M B :=
  fun s => match m s with
           | Done (a, s') => k a s'
           | Fault => Fault
           | OutOfFuel => OutOfFuel
           end.

Notation "'let*' x ':=' m 'in' k" := (bind m (fun x => k))
  (at level 10, x name, m at level 99, k at level 200).
Notation "m ';;' k" := (bind m (fun _ => k))
  (at level 100, k at level 200, right associativity).

Definition gets {A} (f : state -> A) : M A := fun s => Done (f s, s).
Definition modify (f : state -> state) : M unit := fun s => Done (tt, f s).
Definition out_of_fuel {A} : M A := fun _ => OutOfFuel.

Definition emit (e : event) (s : state) : state :=
  mkState (_event_pid s) (sInstance s) (_ot_task_pid s) (otTaskPending s)
          (serial_bufs s) (jobs s) (pending_irq s) (world s) (trace s ++ [e]).

(** Perform an external call: ask the oracle, log call and answer. *)
Definition ext_ret (c : call) (s : state) : Z := (ext c (world s)).1.

Definition after_call (c : call) (s : state) : state :=
  mkState (_event_pid s) (sInstance s) (_ot_task_pid s) (otTaskPending s)
          (serial_bufs s) (jobs s) (pending_irq s) (ext c (world s)).2
          (trace s ++ [Call c (ext_ret c s)]).

Definition do_call (c : call) : M Z :=
  fun s => Done (ext_ret c s, after_call c s).

Definition msg_receive (m : msg_t) : M unit := modify (emit (Receive m)).

(** Assignments to the statics and to shared objects. *)
Definition set__event_pid (v : Z) : M unit :=
  modify (fun s => mkState v (sInstance s) (_ot_task_pid s) (otTaskPending s)
                           (serial_bufs s) (jobs s) (pending_irq s) (world s) (trace s)).

Definition set_sInstance (v : Z) : M unit :=
  modify (fun s => mkState (_event_pid s) v (_ot_task_pid s) (otTaskPending s)
                           (serial_bufs s) (jobs s) (pending_irq s) (world s) (trace s)).

Definition set__ot_task_pid (v : Z) : M unit :=
  modify (fun s => mkState (_event_pid s) (sInstance s) v (otTaskPending s)
                           (serial_bufs s) (jobs s) (pending_irq s) (world s) (trace s)).

Definition set_otTaskPending (b : bool) : M unit :=
  modify (fun s => emit (Store loc_otTaskPending (Z.b2z b))
                     (mkState (_event_pid s) (sInstance s) (_ot_task_pid s) b
                              (serial_bufs s) (jobs s) (pending_irq s) (world s) (trace s))).

Definition with_status (v : Z) (b : serial_msg_t) : serial_msg_t :=
  {| buf := buf b; length := length b; serial_buffer_status := v |}.

(** [serialBuffer->serial_buffer_status = v] *)
Definition set_serial_buffer_status (p v : Z) : M unit :=
  fun s => match serial_bufs s !! p with
           | None => Fault
           | Some b =>
               Done (tt, emit (Store (loc_serial_buffer_status p) v)
                           (mkState (_event_pid s) (sInstance s) (_ot_task_pid s)
                                    (otTaskPending s)
                                    (<[p := with_status v b]> (serial_bufs s))
                                    (jobs s) (pending_irq s) (world s) (trace s)))
           end.

(** Dereference of a [serial_msg_t *] or [ot_job_t *] taken from a message. *)
Definition load_serial (p : Z) : M serial_msg_t :=
  fun s => match serial_bufs s !! p with
           | Some b => Done (b, s)
           | None => Fault
           end.

Definition load_job (p : Z) : M ot_job_t :=
  fun s => match jobs s !! p with
           | Some j => Done (j, s)
           | None => Fault
           end.

(** [x--] on the unsigned counter of [pending_irq_bits] bits. *)
Definition decr_wrap (x : Z) : Z := (x - 1) mod 2 ^ pending_irq_bits.

Definition decrement_pending_irq : M unit :=
  modify (fun s => emit (Store loc_pending_irq (decr_wrap (pending_irq s)))
                     (mkState (_event_pid s) (sInstance s) (_ot_task_pid s)
                              (otTaskPending s) (serial_bufs s) (jobs s)
                              (decr_wrap (pending_irq s)) (world s) (trace s))).

(** Conversion of a result to the [uint32_t] of [content.value]. *)
Definition to_uint32 (v : Z) : Z := v mod 2 ^ 32.

(** ** The event thread *)

Definition openthread_get_instance : M Z := gets sInstance.

Definition openthread_get_event_pid : M Z := gets _event_pid.

(** [self] is [thread_getpid()], the identifier of the calling thread. *)
Definition otTaskletsSignalPending (self : Z) (aInstance : Z) : M unit :=
  let* pid := openthread_get_event_pid in
  if negb (self =? pid) then
    let* target := openthread_get_event_pid in
    do_call (msg_send OPENTHREAD_TASK_MSG_TYPE_EVENT target) ;;
    ret tt
  else ret tt.

(** [while (otTaskletsArePending(inst)) otTaskletsProcess(inst);] *)
Fixpoint drain_tasklets (fuel : nat) : M unit :=
  match fuel with
  | O => out_of_fuel
  | S n =>
      let* inst := openthread_get_instance in
      let* pending := do_call (otTaskletsArePending inst) in
      if pending =? 0 then ret tt
      else
        let* inst' := openthread_get_instance in
        do_call (otTaskletsProcess inst') ;;
        drain_tasklets n
  end.

(** The [switch (msg.type)] of [_openthread_event_thread]; no [default]. *)
Definition event_switch (msg : msg_t) : M unit :=
  if type msg =? OPENTHREAD_TASK_MSG_TYPE_EVENT then
    ret tt
  else if type msg =? OPENTHREAD_NETDEV_MSG_TYPE_EVENT then
    do_call netdev_isr ;;
    if MODULE_OPENTHREAD_FTD cfg then
      if negb (content msg =? 0) then
        let* st := do_call irq_disable in
        decrement_pending_irq ;;
        do_call (irq_restore st) ;;
        ret tt
      else ret tt
    else ret tt
  else if type msg =? OPENTHREAD_LINK_RETRY_TIMEOUT then
    let* inst := openthread_get_instance in
    do_call (sent_pkt inst NETDEV_EVENT_TX_NOACK) ;;
    ret tt
  else if type msg =? OPENTHREAD_NETDEV_MSG_TYPE_RADIO_BUSY then
    let* inst := openthread_get_instance in
    do_call (sent_pkt inst NETDEV_EVENT_TX_MEDIUM_BUSY) ;;
    ret tt
  else if type msg =? OPENTHREAD_MILLITIMER_MSG_TYPE_EVENT then
    let* inst := gets sInstance in
    do_call (otPlatAlarmMilliFired inst) ;;
    ret tt
  else if MODULE_OPENTHREAD_FTD cfg
          && (type msg =? OPENTHREAD_MICROTIMER_MSG_TYPE_EVENT) then
    let* inst := openthread_get_instance in
    do_call (otPlatAlarmMicroFired inst) ;;
    ret tt
  else if type msg =? OPENTHREAD_SERIAL_MSG_TYPE_EVENT then
    (if MODULE_OPENTHREAD_NCP_FTD cfg then do_call wdt_clear ;; ret tt else ret tt) ;;
    let serialBuffer := content msg in
    let* sb := load_serial serialBuffer in
    do_call (otPlatUartReceived (buf sb) (length sb)) ;;
    set_serial_buffer_status serialBuffer OPENTHREAD_SERIAL_BUFFER_STATUS_FREE
  else if type msg =? OPENTHREAD_JOB_MSG_TYPE_EVENT then
    let* job := load_job (content msg) in
    let* inst := gets sInstance in
    let* r := do_call (ot_exec_command inst (command job) (arg job) (answer job)) in
    let reply_content_value := to_uint32 r in
    do_call (msg_reply msg reply_content_value) ;;
    ret tt
  else ret tt.

(** The [while (1)] of [_openthread_event_thread], run on the messages that
    [msg_receive] will deliver, in order; it ends where the thread blocks in
    [msg_receive] on an empty queue. *)
Fixpoint event_loop (fuel : nat) (inbox : list msg_t) : M unit :=
  drain_tasklets fuel ;;
  match inbox with
  | [] => ret tt
  | msg :: rest =>
      msg_receive msg ;;
      event_switch msg ;;
      event_loop fuel rest
  end.

Definition when (b : bool) (m : M unit) : M unit := if b then m else ret tt.

Definition _openthread_event_thread (self : Z) (fuel : nat) (inbox : list msg_t) : M unit :=
  set__event_pid self ;;
  do_call (msg_init_queue _openthread_event_thread_fn OPENTHREAD_EVENT_QUEUE_LEN) ;;
  do_call (xtimer_usleep 100000) ;;
  let* inst := do_call otInstanceInitSingle in
  set_sInstance inst ;;
  let panid := OPENTHREAD_PANID in
  let channel := OPENTHREAD_CHANNEL in
  (let* i := gets sInstance in do_call (otLinkSetPanId i panid)) ;;
  (let* i := gets sInstance in do_call (otLinkSetChannel i channel)) ;;
  when (MODULE_OPENTHREAD_CLI_FTD cfg || MODULE_OPENTHREAD_CLI_MTD cfg)
       ((let* i := gets sInstance in do_call (otCliUartInit i)) ;;
        (let* i := gets sInstance in do_call (otIp6SetEnabled i true)) ;;
        (let* i := gets sInstance in do_call (otThreadSetEnabled i true)) ;;
        ret tt) ;;
  when (MODULE_OPENTHREAD_NCP_FTD cfg)
       ((let* i := gets sInstance in do_call (otNcpInit i)) ;;
        (let* i := gets sInstance in do_call (otCommissionerStart i)) ;;
        ret tt) ;;
  when (OPENTHREAD_ENABLE_DIAG cfg)
       ((let* i := gets sInstance in do_call (diagInit i)) ;; ret tt) ;;
  event_loop fuel inbox.

Definition openthread_event_init (stack stacksize priority : Z) (name : string) : M Z :=
  let* pid := do_call (thread_create stack stacksize priority THREAD_CREATE_STACKTEST
                                     _openthread_event_thread_fn name) in
  set__event_pid pid ;;
  let* p := gets _event_pid in
  if p <=? 0 then ret (- EINVAL)
  else gets _event_pid.

(** ** The task thread, openthread_task_thread.c *)

Definition openthread_get_task_pid : M Z := gets _ot_task_pid.

(** The [switch (msg.type)] of [_openthread_task_thread]; no [default]. *)
Definition task_switch (msg : msg_t) : M unit :=
  if type msg =? OPENTHREAD_TASK_MSG_TYPE_EVENT then
    set_otTaskPending false
  else if MODULE_OPENTHREAD_FTD cfg
          && (type msg =? OPENTHREAD_MICROTIMER_MSG_TYPE_EVENT) then
    let* inst := openthread_get_instance in
    do_call (otPlatAlarmMicroFired inst) ;;
    ret tt
  else if type msg =? OPENTHREAD_NETDEV_MSG_TYPE_EVENT then
    do_call lock_radio_mutex ;;
    do_call netdev_isr ;;
    do_call unlock_radio_mutex ;;
    ret tt
  else if type msg =? OPENTHREAD_NETDEV_MSG_TYPE_RADIO_BUSY then
    let* inst := openthread_get_instance in
    do_call (sent_pkt inst NETDEV_EVENT_TX_MEDIUM_BUSY) ;;
    ret tt
  else if type msg =? OPENTHREAD_LINK_RETRY_TIMEOUT then
    let* inst := openthread_get_instance in
    do_call (sent_pkt inst NETDEV_EVENT_TX_NOACK) ;;
    ret tt
  else ret tt.

(** One turn of the [while (1)] of [_openthread_task_thread], after
    [msg_receive] delivered [msg]. *)
Definition task_iteration (fuel : nat) (msg : msg_t) : M unit :=
  msg_receive msg ;;
  do_call openthread_coarse_lock_buffer_mutex ;;
  task_switch msg ;;
  drain_tasklets fuel ;;
  do_call openthread_coarse_unlock_buffer_mutex ;;
  ret tt.

Fixpoint task_loop (fuel : nat) (inbox : list msg_t) : M unit :=
  match inbox with
  | [] => ret tt
  | msg :: rest => task_iteration fuel msg ;; task_loop fuel rest
  end.

Definition _openthread_task_thread (self : Z) (fuel : nat) (inbox : list msg_t) : M unit :=
  set__ot_task_pid self ;;
  do_call (msg_init_queue _openthread_task_thread_fn OPENTHREAD_TASK_QUEUE_LEN) ;;
  task_loop fuel inbox.

Definition openthread_task_init (stack stacksize priority : Z) (name : string) : M Z :=
  let* pid := do_call (thread_create stack stacksize priority THREAD_CREATE_STACKTEST
                                     _openthread_task_thread_fn name) in
  set__ot_task_pid pid ;;
  let* p := gets _ot_task_pid in
  if p <=? 0 then ret (- EINVAL)
  else gets _ot_task_pid.

(** ** Entry points of the layer, as one type *)

Inductive operation :=
| op_openthread_get_instance
| op_openthread_get_event_pid
| op_openthread_get_task_pid
| op_otTaskletsSignalPending (self aInstance : Z)
| op_openthread_event_init (stack stacksize priority : Z) (name : string)
| op_openthread_task_init (stack stacksize priority : Z) (name : string)
| op_event_thread (self : Z) (fuel : nat) (inbox : list msg_t)
| op_task_thread (self : Z) (fuel : nat) (inbox : list msg_t).

Definition run_operation (o : operation) : M Z :=
  match o with
  | op_openthread_get_instance => openthread_get_instance
  | op_openthread_get_event_pid => openthread_get_event_pid
  | op_openthread_get_task_pid => openthread_get_task_pid
  | op_otTaskletsSignalPending self i => otTaskletsSignalPending self i ;; ret 0
  | op_openthread_event_init st sz pr nm => openthread_event_init st sz pr nm
  | op_openthread_task_init st sz pr nm => openthread_task_init st sz pr nm
  | op_event_thread self fuel inbox => _openthread_event_thread self fuel inbox ;; ret 0
  | op_task_thread self fuel inbox => _openthread_task_thread self fuel inbox ;; ret 0
  end.

(** ** Devices used to state properties *)

(** The drain loop as a function of the collaborator's state alone: the
    events it logs and the state it leaves, or [None] past the budget. *)
Fixpoint drain_run (fuel : nat) (inst : Z) (w : W) : option (list event * W) :=
  match fuel with
  | O => None
  | S n =>
      let a := ext (otTaskletsArePending inst) w in
      if a.1 =? 0 then Some ([Call (otTaskletsArePending inst) a.1], a.2)
      else
        let p := ext (otTaskletsProcess inst) a.2 in
        match drain_run n inst p.2 with
        | Some (evs, w') =>
            Some (Call (otTaskletsArePending inst) a.1
                    :: Call (otTaskletsProcess inst) p.1 :: evs, w')
        | None => None
        end
  end.

(** The stack reports pending work [k] times and none the next time. *)
Fixpoint quiesces_after (k : nat) (inst : Z) (w : W) : Prop :=
  let a := ext (otTaskletsArePending inst) w in
  match k with
  | O => a.1 = 0
  | S k' => a.1 <> 0 /\ quiesces_after k' inst (ext (otTaskletsProcess inst) a.2).2
  end.

(** State [s] with the collaborator's state and the trace replaced. *)
Definition with_world (s : state) (w : W) (t : list event) : state :=
  mkState (_event_pid s) (sInstance s) (_ot_task_pid s) (otTaskPending s)
          (serial_bufs s) (jobs s) (pending_irq s) w t.

(** Tags with a [case] label in the event worker and in the task worker. *)
Definition event_tags : list Z :=
  [OPENTHREAD_TASK_MSG_TYPE_EVENT; OPENTHREAD_NETDEV_MSG_TYPE_EVENT;
   OPENTHREAD_LINK_RETRY_TIMEOUT; OPENTHREAD_NETDEV_MSG_TYPE_RADIO_BUSY;
   OPENTHREAD_MILLITIMER_MSG_TYPE_EVENT]
  ++ (if MODULE_OPENTHREAD_FTD cfg then [OPENTHREAD_MICROTIMER_MSG_TYPE_EVENT] else [])
  ++ [OPENTHREAD_SERIAL_MSG_TYPE_EVENT; OPENTHREAD_JOB_MSG_TYPE_EVENT].

Definition task_tags : list Z :=
  [OPENTHREAD_TASK_MSG_TYPE_EVENT]
  ++ (if MODULE_OPENTHREAD_FTD cfg then [OPENTHREAD_MICROTIMER_MSG_TYPE_EVENT] else [])
  ++ [OPENTHREAD_NETDEV_MSG_TYPE_EVENT; OPENTHREAD_NETDEV_MSG_TYPE_RADIO_BUSY;
      OPENTHREAD_LINK_RETRY_TIMEOUT].

(** A computation that neither changes [otTaskPending] nor stores to it. *)
Definition flag_quiet {A} (m : M A) : Prop :=
  forall s a s', m s = Done (a, s') ->
    otTaskPending s' = otTaskPending s
    /\ flag_stores (trace s') = flag_stores (trace s).

(** A computation that only appends to the trace, and only events in [P]. *)
Definition logs_only {A} (P : event -> Prop) (m : M A) : Prop :=
  forall s a s', m s = Done (a, s') ->
    exists evs, trace s' = trace s ++ evs /\ Forall P evs.

(** Number of times an operation takes a tasklet-pending message out of the
    task worker's queue. *)
Definition clears (o : operation) : nat :=
  match o with
  | op_task_thread _ _ inbox =>
      List.length
        (List.filter (fun m => type m =? OPENTHREAD_TASK_MSG_TYPE_EVENT) inbox)
  | _ => 0%nat
  end.

End Program.

(** The case labels of one [switch] are pairwise different (a C compiler
    rejects duplicate labels). *)
Definition tags_distinct `{K : ot_h} : Prop :=
  NoDup [OPENTHREAD_TASK_MSG_TYPE_EVENT; OPENTHREAD_NETDEV_MSG_TYPE_EVENT;
         OPENTHREAD_LINK_RETRY_TIMEOUT; OPENTHREAD_NETDEV_MSG_TYPE_RADIO_BUSY;
         OPENTHREAD_MILLITIMER_MSG_TYPE_EVENT; OPENTHREAD_MICROTIMER_MSG_TYPE_EVENT;
         OPENTHREAD_SERIAL_MSG_TYPE_EVENT; OPENTHREAD_JOB_MSG_TYPE_EVENT].

(** Lock discipline of the task worker as a monitor over a trace.  Its state
    is (coarse buffer mutex held, radio mutex held); [None] is a violation. *)
Definition lock_step (h : bool * bool) (e : event) : option (bool * bool) :=
  match e, h with
  | Receive _, (false, false) => Some h
  | Call openthread_coarse_lock_buffer_mutex _, (false, false) => Some (true, false)
  | Call openthread_coarse_unlock_buffer_mutex _, (true, false) => Some (false, false)
  | Call lock_radio_mutex _, (true, false) => Some (true, true)
  | Call unlock_radio_mutex _, (true, true) => Some (true, false)
  | Call netdev_isr _, (true, true) => Some h
  | Receive _, _
  | Call openthread_coarse_lock_buffer_mutex _, _
  | Call openthread_coarse_unlock_buffer_mutex _, _
  | Call lock_radio_mutex _, _
  | Call unlock_radio_mutex _, _
  | Call netdev_isr _, _ => None
  | _, (true, false) => Some h
  | _, _ => None
  end.

Fixpoint lock_monitor (h : bool * bool) (t : list event) : option (bool * bool) :=
  match t with
  | [] => Some h
  | e :: t' => match lock_step h e with
               | Some h' => lock_monitor h' t'
               | None => None
               end
  end.

(** Events that operate the radio or its mutex. *)
Definition touches_radio (e : event) : bool :=
  match e with
  | Call lock_radio_mutex _ | Call unlock_radio_mutex _ | Call netdev_isr _ => true
  | _ => false
  end.

Definition is_receive (e : event) : Prop :=
  match e with Receive _ => True | _ => False end.

(** Monitor for the event worker: [q] is true when the latest thing the
    worker did was to hear from the stack that no tasklet is pending.  A
    [Receive] in any other situation is a violation. *)
Definition quiet_step (q : bool) (e : event) : option bool :=
  match e with
  | Call (otTaskletsArePending _) r => Some (r =? 0)
  | Receive _ => if q then Some false else None
  | _ => Some false
  end.

Fixpoint quiet_monitor (q : bool) (t : list event) : option bool :=
  match t with
  | [] => Some q
  | e :: t' => match quiet_step q e with
               | Some q' => quiet_monitor q' t'
               | None => None
               end
  end.

(** Shape of what one run of the drain loop logs: rounds of "pending" and
    [otTaskletsProcess], closed by one answer "nothing pending". *)
Inductive drained (inst : Z) : list event -> Prop :=
| drained_done :
    drained inst [Call (otTaskletsArePending inst) 0]
| drained_round r r' evs :
    r <> 0 -> drained inst evs ->
    drained inst (Call (otTaskletsArePending inst) r
                    :: Call (otTaskletsProcess inst) r' :: evs).

(** ** What a worker may log *)

(** External calls and received messages of a trace, in order. *)
Definition calls (t : list event) : list call :=
  omap (fun e => match e with Call c _ => Some c | _ => None end) t.

Definition receives (t : list event) : list msg_t :=
  omap (fun e => match e with Receive m => Some m | _ => None end) t.

(** The [otInstance *] argument of a call, when it has one. *)
Definition inst_arg (c : call) : option Z :=
  match c with
  | otLinkSetPanId i _ | otLinkSetChannel i _ | otCliUartInit i
  | otIp6SetEnabled i _ | otThreadSetEnabled i _ | otNcpInit i
  | otCommissionerStart i | diagInit i | otTaskletsArePending i
  | otTaskletsProcess i | sent_pkt i _ | otPlatAlarmMilliFired i
  | otPlatAlarmMicroFired i | ot_exec_command i _ _ _ => Some i
  | _ => None
  end.

(** An event that neither creates an instance nor passes one other than
    [inst]. *)
Definition uses_instance (inst : Z) (e : event) : bool :=
  match e with
  | Call otInstanceInitSingle _ => false
  | Call c _ => match inst_arg c with
                | Some i => i =? inst
                | None => true
                end
  | _ => true
  end.

Definition is_mutex_call (c : call) : bool :=
  match c with
  | openthread_coarse_lock_buffer_mutex | openthread_coarse_unlock_buffer_mutex
  | lock_radio_mutex | unlock_radio_mutex => true
  | _ => false
  end.

Definition is_coarse_mutex_call (c : call) : bool :=
  match c with
  | openthread_coarse_lock_buffer_mutex | openthread_coarse_unlock_buffer_mutex => true
  | _ => false
  end.

(** Where a worker stands in a turn of its loop: between turns, just after
    a receive, or just after taking the coarse buffer mutex that follows a
    receive. *)
Inductive turn :=
| turn_idle
| turn_received (m : msg_t)
| turn_locked (m : msg_t).

(** The write to [otTaskPending] is due: the worker has received a message
    with tag [tag], taken the coarse buffer mutex, and done nothing since. *)
Definition store_due (tag : Z) (t : turn) : bool :=
  match t with
  | turn_locked m => type m =? tag
  | _ => false
  end.

(** Monitor for the place of the write to [otTaskPending]: a store to the
    flag is accepted only when it is due and writes 0, and when it is due
    nothing else is accepted. *)
Definition flag_step (tag : Z) (t : turn) (e : event) : option turn :=
  match e with
  | Store loc_otTaskPending v =>
      if store_due tag t && (v =? 0) then Some turn_idle else None
  | Receive m => if store_due tag t then None else Some (turn_received m)
  | Call openthread_coarse_lock_buffer_mutex _ =>
      if store_due tag t then None
      else match t with
           | turn_received m => Some (turn_locked m)
           | _ => Some turn_idle
           end
  | _ => if store_due tag t then None else Some turn_idle
  end.

Fixpoint flag_monitor (tag : Z) (t : turn) (evs : list event) : option turn :=
  match evs with
  | [] => Some t
  | e :: evs' => match flag_step tag t e with
                 | Some t' => flag_monitor tag t' evs'
                 | None => None
                 end
  end.

(** Events that neither write the flag nor take the coarse buffer mutex. *)
Definition flag_free (e : event) : bool :=
  match e with
  | Store loc_otTaskPending _ | Call openthread_coarse_lock_buffer_mutex _ => false
  | _ => true
  end.

(** The events the body of the event worker's loop can log when the stack
    instance is [inst]. *)
Definition event_loop_event (inst : Z) (e : event) : bool :=
  match e with
  | Receive _ => true
  | Store (loc_serial_buffer_status _) _ | Store loc_pending_irq _ => true
  | Store loc_otTaskPending _ => false
  | Call c _ =>
      match c with
      | otTaskletsArePending i | otTaskletsProcess i | sent_pkt i _
      | otPlatAlarmMilliFired i | otPlatAlarmMicroFired i
      | ot_exec_command i _ _ _ => i =? inst
      | netdev_isr | irq_disable | irq_restore _ | wdt_clear
      | otPlatUartReceived _ _ | msg_reply _ _ => true
      | _ => false
      end
  end.

(** The events the body of the task worker's loop can log. *)
Definition task_loop_event (inst : Z) (e : event) : bool :=
  match e with
  | Receive _ => true
  | Store loc_otTaskPending v => v =? 0
  | Store _ _ => false
  | Call c _ =>
      match c with
      | otTaskletsArePending i | otTaskletsProcess i | sent_pkt i _
      | otPlatAlarmMicroFired i => i =? inst
      | netdev_isr | openthread_coarse_lock_buffer_mutex
      | openthread_coarse_unlock_buffer_mutex | lock_radio_mutex
      | unlock_radio_mutex => true
      | _ => false
      end
  end.

(** Bytes and length of a serial buffer, without its status. *)
Definition payload (b : serial_msg_t) : list Z * Z := (buf b, length b).

Section Counting.

Context {K : ot_h} (cfg : build).

(** The calls of the event thread before its loop, for instance [inst]. *)
Definition startup_calls (inst : Z) : list call :=
  [msg_init_queue _openthread_event_thread_fn OPENTHREAD_EVENT_QUEUE_LEN;
   xtimer_usleep 100000;
   otInstanceInitSingle;
   otLinkSetPanId inst OPENTHREAD_PANID;
   otLinkSetChannel inst OPENTHREAD_CHANNEL]
  ++ (if MODULE_OPENTHREAD_CLI_FTD cfg || MODULE_OPENTHREAD_CLI_MTD cfg
      then [otCliUartInit inst; otIp6SetEnabled inst true; otThreadSetEnabled inst true]
      else [])
  ++ (if MODULE_OPENTHREAD_NCP_FTD cfg
      then [otNcpInit inst; otCommissionerStart inst] else [])
  ++ (if OPENTHREAD_ENABLE_DIAG cfg then [diagInit inst] else []).

(** Job requests of a queue, and the number of its radio-driver events
    that make the event worker decrement [pending_irq]. *)
Definition job_requests (inbox : list msg_t) : list msg_t :=
  List.filter (fun m => type m =? OPENTHREAD_JOB_MSG_TYPE_EVENT) inbox.

Definition counted_irqs (inbox : list msg_t) : nat :=
  if MODULE_OPENTHREAD_FTD cfg
  then List.length
         (List.filter (fun m => (type m =? OPENTHREAD_NETDEV_MSG_TYPE_EVENT)
                                && negb (content m =? 0)) inbox)
  else 0%nat.

End Counting.

(** ** A concrete board, used to run the model *)

Module Sample.

(** Sample header values. *)
Definition consts : ot_h := {|
  OPENTHREAD_TASK_MSG_TYPE_EVENT := 0x2234;
  OPENTHREAD_NETDEV_MSG_TYPE_EVENT := 0x2236;
  OPENTHREAD_LINK_RETRY_TIMEOUT := 0x2239;
  OPENTHREAD_NETDEV_MSG_TYPE_RADIO_BUSY := 0x223A;
  OPENTHREAD_MILLITIMER_MSG_TYPE_EVENT := 0x2235;
  OPENTHREAD_MICROTIMER_MSG_TYPE_EVENT := 0x223B;
  OPENTHREAD_SERIAL_MSG_TYPE_EVENT := 0x2237;
  OPENTHREAD_JOB_MSG_TYPE_EVENT := 0x2240;
  OPENTHREAD_SERIAL_BUFFER_STATUS_FREE := 1;
  OPENTHREAD_PANID := 0xbeef;
  OPENTHREAD_CHANNEL := 26;
  THREAD_CREATE_STACKTEST := 8;
  pending_irq_bits := 8
|}.

Definition ftd : build := {|
  MODULE_OPENTHREAD_FTD := true;
  MODULE_OPENTHREAD_NCP_FTD := false;
  MODULE_OPENTHREAD_CLI_FTD := true;
  MODULE_OPENTHREAD_CLI_MTD := false;
  OPENTHREAD_ENABLE_DIAG := false
|}.

Definition ncp : build := {|
  MODULE_OPENTHREAD_FTD := true;
  MODULE_OPENTHREAD_NCP_FTD := true;
  MODULE_OPENTHREAD_CLI_FTD := false;
  MODULE_OPENTHREAD_CLI_MTD := false;
  OPENTHREAD_ENABLE_DIAG := false
|}.

(** A stub of the collaborators whose state is the number of queued
    tasklets.  Reporting a transmit outcome or a timer queues one tasklet;
    [thread_create] refuses priorities from 16 on, as the kernel does, with
    [-EINVAL]; the command [echo] answers with its argument. *)
Definition stub (c : call) (n : nat) : Z * nat :=
  match c with
  | thread_create _ _ priority _ fn _ =>
      if priority <? 16
      then (match fn with
            | _openthread_event_thread_fn => 5
            | _openthread_task_thread_fn => 4
            end, n)
      else (- 22, n)
  | otInstanceInitSingle => (0x20001000, n)
  | otTaskletsArePending _ => (match n with O => 0 | S _ => 1 end, n)
  | otTaskletsProcess _ => (0, Nat.pred n)
  | sent_pkt _ _ => (0, S n)
  | otPlatAlarmMilliFired _ => (0, S n)
  | otPlatAlarmMicroFired _ => (0, S n)
  | ot_exec_command _ cmd a _ => (if String.eqb cmd "echo" then a else 1, n)
  | irq_disable => (1, n)
  | _ => (0, n)
  end.

(** The state before either thread exists: zeroed statics, one serial
    buffer at address 0x100 and one job record at address 0x200. *)
Definition hi_buffer : serial_msg_t :=
  {| buf := [104; 105; 10]; length := 3; serial_buffer_status := 2 |}.

Definition echo_job : ot_job_t :=
  {| command := "echo"; arg := 42; answer := 0x300 |}.

Definition boot (n : nat) : state :=
  mkState 0 0 0 false {[ 0x100 := hi_buffer ]} {[ 0x200 := echo_job ]} 3 n [].

(** The same with the pending-task flag set. *)
Definition flagged (n : nat) : state :=
  mkState 0 0 0 true {[ 0x100 := hi_buffer ]} {[ 0x200 := echo_job ]} 3 n [].

(** A stack that reports pending tasklets for ever. *)
Definition busy_stub (c : call) (n : nat) : Z * nat := (1, n).

(** A message from thread 7. *)
Definition message (ty payload : Z) : msg_t :=
  {| sender_pid := 7; type := ty; content := payload |}.

Definition task_msg : msg_t := message 0x2234 0.
Definition netdev_msg (value : Z) : msg_t := message 0x2236 value.
Definition retry_msg : msg_t := message 0x2239 0.
Definition busy_msg : msg_t := message 0x223A 0.
Definition serial_msg : msg_t := message 0x2237 0x100.
Definition job_msg : msg_t := message 0x2240 0x200.
Definition stray_msg : msg_t := message 99 0.
Definition micro_msg : msg_t := message 0x223B 0.

Definition mixed_inbox : list msg_t :=
  [serial_msg; netdev_msg 1; netdev_msg 0; job_msg; retry_msg; stray_msg;
   netdev_msg 2; job_msg].

End Sample.

(** * Properties *)

Section Properties.

Context {W : Type} (ext : call -> W -> Z * W).
Context {K : ot_h} (cfg : build).

(** Unfolding of the monad's plumbing. *)
Ltac run :=
  cbv [bind ret gets modify do_call msg_receive when
       openthread_get_instance openthread_get_event_pid openthread_get_task_pid
       set__event_pid set__ot_task_pid set_sInstance set_otTaskPending
       decrement_pending_irq load_serial load_job set_serial_buffer_status];
  cbn [_event_pid sInstance _ot_task_pid otTaskPending serial_bufs jobs
       pending_irq world trace after_call emit fst snd].

(** Projections out of explicitly built states. *)
Ltac fields :=
  cbn [_event_pid sInstance _ot_task_pid otTaskPending serial_bufs jobs
       pending_irq world trace after_call emit with_world fst snd].

Ltac fields_in H :=
  cbn [_event_pid sInstance _ot_task_pid otTaskPending serial_bufs jobs
       pending_irq world trace after_call emit with_world fst snd] in H.

(** Decide the comparisons of a [switch] from what is known about the tag. *)
Ltac tag_cases :=
  repeat match goal with
         | |- context [?a =? ?a] => rewrite (Z.eqb_refl a)
         | H : ?a <> ?b |- context [?a =? ?b] =>
             rewrite (proj2 (Z.eqb_neq a b) H)
         | H : ?b <> ?a |- context [?a =? ?b] =>
             rewrite (proj2 (Z.eqb_neq a b) (not_eq_sym H))
         end;
  rewrite ?andb_false_r, ?andb_true_r.

Lemma tags_distinct_neq :
  tags_distinct ->
  forall (i j : nat) (a b : Z),
    (i < j)%nat ->
    [OPENTHREAD_TASK_MSG_TYPE_EVENT; OPENTHREAD_NETDEV_MSG_TYPE_EVENT;
     OPENTHREAD_LINK_RETRY_TIMEOUT; OPENTHREAD_NETDEV_MSG_TYPE_RADIO_BUSY;
     OPENTHREAD_MILLITIMER_MSG_TYPE_EVENT; OPENTHREAD_MICROTIMER_MSG_TYPE_EVENT;
     OPENTHREAD_SERIAL_MSG_TYPE_EVENT; OPENTHREAD_JOB_MSG_TYPE_EVENT] !! i = Some a ->
    [OPENTHREAD_TASK_MSG_TYPE_EVENT; OPENTHREAD_NETDEV_MSG_TYPE_EVENT;
     OPENTHREAD_LINK_RETRY_TIMEOUT; OPENTHREAD_NETDEV_MSG_TYPE_RADIO_BUSY;
     OPENTHREAD_MILLITIMER_MSG_TYPE_EVENT; OPENTHREAD_MICROTIMER_MSG_TYPE_EVENT;
     OPENTHREAD_SERIAL_MSG_TYPE_EVENT; OPENTHREAD_JOB_MSG_TYPE_EVENT] !! j = Some b ->
    a <> b.
Proof.
  intros Hd i j a b Hij Ha Hb Hab. subst b.
  pose proof (NoDup_lookup _ _ _ _ Hd Ha Hb). lia.
Qed.

Ltac pose_neq Hd i j :=
  pose proof (tags_distinct_neq Hd i j _ _ ltac:(lia) eq_refl eq_refl).

(** All pairwise inequalities between case labels. *)
Ltac distinct_tags Hd :=
  pose_neq Hd 0%nat 1%nat;
  pose_neq Hd 0%nat 2%nat;
  pose_neq Hd 0%nat 3%nat;
  pose_neq Hd 0%nat 4%nat;
  pose_neq Hd 0%nat 5%nat;
  pose_neq Hd 0%nat 6%nat;
  pose_neq Hd 0%nat 7%nat;
  pose_neq Hd 1%nat 2%nat;
  pose_neq Hd 1%nat 3%nat;
  pose_neq Hd 1%nat 4%nat;
  pose_neq Hd 1%nat 5%nat;
  pose_neq Hd 1%nat 6%nat;
  pose_neq Hd 1%nat 7%nat;
  pose_neq Hd 2%nat 3%nat;
  pose_neq Hd 2%nat 4%nat;
  pose_neq Hd 2%nat 5%nat;
  pose_neq Hd 2%nat 6%nat;
  pose_neq Hd 2%nat 7%nat;
  pose_neq Hd 3%nat 4%nat;
  pose_neq Hd 3%nat 5%nat;
  pose_neq Hd 3%nat 6%nat;
  pose_neq Hd 3%nat 7%nat;
  pose_neq Hd 4%nat 5%nat;
  pose_neq Hd 4%nat 6%nat;
  pose_neq Hd 4%nat 7%nat;
  pose_neq Hd 5%nat 6%nat;
  pose_neq Hd 5%nat 7%nat;
  pose_neq Hd 6%nat 7%nat.

(** ** The tasklet drain *)

Lemma drain_tasklets_run (fuel : nat) (s : state) :
  drain_tasklets ext fuel s =
  match drain_run ext fuel (sInstance s) (world s) with
  | Some (evs, w') => Done (tt, with_world s w' (trace s ++ evs))
  | None => OutOfFuel
  end.
Proof.
  revert s. induction fuel as [|n IH]; intros s; [reflexivity|].
  cbn [drain_tasklets drain_run]. run. unfold ext_ret.
  destruct ((ext (otTaskletsArePending (sInstance s)) (world s)).1 =? 0).
  - reflexivity.
  - rewrite IH. cbn [sInstance world trace after_call].
    destruct (drain_run ext n _ _) as [[evs w']|]; [|reflexivity].
    unfold with_world. cbn. unfold ext_ret. cbn.
    by rewrite <- !app_assoc.
Qed.

Lemma drain_run_drained (fuel : nat) (inst : Z) (w w' : W) (evs : list event) :
  drain_run ext fuel inst w = Some (evs, w') -> drained inst evs.
Proof.
  revert w evs. induction fuel as [|n IH]; intros w evs; [discriminate|].
  cbn [drain_run].
  destruct (Z.eqb_spec (ext (otTaskletsArePending inst) w).1 0) as [E|E].
  - intros [= <- <-]. rewrite E. constructor.
  - destruct (drain_run ext n inst _) as [[evs0 w0]|] eqn:R; [|discriminate].
    intros [= <- <-]. constructor; [exact E|]. eapply IH, R.
Qed.

(** Enough fuel gives the result: a stack that quiesces after [k] rounds is
    drained, in [k] rounds, by any budget above [k]. *)
Lemma drain_run_total (k fuel : nat) (inst : Z) (w : W) :
  quiesces_after ext k inst w -> (k < fuel)%nat ->
  exists evs w', drain_run ext fuel inst w = Some (evs, w')
                 /\ List.length evs = (2 * k + 1)%nat.
Proof.
  revert fuel w. induction k as [|k IH]; intros [|fuel] w Hq Hlt; try lia.
  - cbn in Hq. cbn [drain_run]. rewrite Hq. cbn. eauto.
  - cbn in Hq. destruct Hq as [Hne Hq]. cbn [drain_run].
    destruct (Z.eqb_spec (ext (otTaskletsArePending inst) w).1 0) as [E|_]; [done|].
    destruct (IH fuel _ Hq ltac:(lia)) as (evs & w' & -> & Hlen).
    eexists _, _. split; [reflexivity|]. cbn [List.length]. lia.
Qed.

Lemma drained_quiet (inst : Z) (evs : list event) (q : bool) :
  drained inst evs -> quiet_monitor q evs = Some true.
Proof.
  intros H. revert q. induction H; intros q; [reflexivity|].
  cbn. apply IHdrained.
Qed.

Lemma drained_locked (inst : Z) (evs : list event) :
  drained inst evs -> lock_monitor (true, false) evs = Some (true, false).
Proof. induction 1; [reflexivity|]. exact IHdrained. Qed.

Lemma lock_monitor_app (h : bool * bool) (t1 t2 : list event) :
  lock_monitor h (t1 ++ t2) =
  match lock_monitor h t1 with
  | Some h' => lock_monitor h' t2
  | None => None
  end.
Proof.
  revert h. induction t1 as [|e t1 IH]; intros h; [reflexivity|].
  cbn. destruct (lock_step h e); [apply IH|reflexivity].
Qed.

Lemma quiet_monitor_app (q : bool) (t1 t2 : list event) :
  quiet_monitor q (t1 ++ t2) =
  match quiet_monitor q t1 with
  | Some q' => quiet_monitor q' t2
  | None => None
  end.
Proof.
  revert q. induction t1 as [|e t1 IH]; intros q; [reflexivity|].
  cbn. destruct (quiet_step q e); [apply IH|reflexivity].
Qed.

(** ** The stack's tasklet-pending callback *)

(** C10: [otTaskletsSignalPending] sends one tasklet-pending message to the
    pid that [openthread_get_event_pid] returns (whatever the task worker's
    pid is) when the calling thread is not the event worker, and does
    nothing at all when the caller is the event worker. *)
Theorem otTaskletsSignalPending_wakes_event_worker (self aInstance : Z) (s : state) :
  openthread_get_event_pid s = Done (_event_pid s, s)
  /\ otTaskletsSignalPending ext self aInstance s =
     Done (tt, if self =? _event_pid s then s
               else after_call ext
                      (msg_send OPENTHREAD_TASK_MSG_TYPE_EVENT (_event_pid s)) s)
  /\ trace (if self =? _event_pid s then s
            else after_call ext
                   (msg_send OPENTHREAD_TASK_MSG_TYPE_EVENT (_event_pid s)) s)
     = trace s ++
       (if self =? _event_pid s then []
        else [Call (msg_send OPENTHREAD_TASK_MSG_TYPE_EVENT (_event_pid s))
                   (ext_ret ext
                      (msg_send OPENTHREAD_TASK_MSG_TYPE_EVENT (_event_pid s)) s)]).
Proof.
  split; [reflexivity|]. unfold otTaskletsSignalPending. run.
  destruct (self =? _event_pid s); cbn [negb].
  - split; [reflexivity|]. by rewrite app_nil_r.
  - split; reflexivity.
Qed.

(** ** Worker start-up *)

(** C1 (amended): each create-and-start entry point returns [-EINVAL] when
    [thread_create] answers a non-positive value and the new worker
    identifier otherwise; in both cases the matching pid accessor afterwards
    returns what [thread_create] answered. *)
Theorem init_returns_pid_or_EINVAL (stack stacksize priority : Z) (name : string)
    (s : state) :
  let re := ext_ret ext (thread_create stack stacksize priority THREAD_CREATE_STACKTEST
                                       _openthread_event_thread_fn name) s in
  let rt := ext_ret ext (thread_create stack stacksize priority THREAD_CREATE_STACKTEST
                                       _openthread_task_thread_fn name) s in
  (exists s', openthread_event_init ext stack stacksize priority name s
              = Done (if re <=? 0 then - EINVAL else re, s')
              /\ openthread_get_event_pid s' = Done (re, s'))
  /\ (exists s', openthread_task_init ext stack stacksize priority name s
                 = Done (if rt <=? 0 then - EINVAL else rt, s')
                 /\ openthread_get_task_pid s' = Done (rt, s')).
Proof.
  intros re rt. split.
  - unfold openthread_event_init. run. fold re.
    destruct (re <=? 0); eexists; split; reflexivity.
  - unfold openthread_task_init. run. fold rt.
    destruct (rt <=? 0); eexists; split; reflexivity.
Qed.

(** ** Writes to the pending-task flag *)

Lemma flag_stores_snoc (t : list event) (e : event) :
  flag_stores (t ++ [e]) = flag_stores t ++ flag_stores [e].
Proof. apply omap_app. Qed.

Lemma flag_quiet_ret {A} (a : A) : flag_quiet (W:=W) (ret a).
Proof. intros s a' s' [= _ <-]. done. Qed.

Lemma flag_quiet_gets {A} (f : @state W -> A) : flag_quiet (W:=W) (gets f).
Proof. intros s a' s' [= _ <-]. done. Qed.

Lemma flag_quiet_bind {A B} (m : @M W A) (k : A -> @M W B) :
  flag_quiet m -> (forall a, flag_quiet (W:=W) (k a)) -> flag_quiet (W:=W) (bind m k).
Proof.
  intros Hm Hk s b s'. unfold bind.
  destruct (m s) as [[a s1]| |] eqn:E; try discriminate.
  intros Hb. destruct (Hm _ _ _ E) as [<- <-]. exact (Hk a _ _ _ Hb).
Qed.

Lemma flag_quiet_do_call (c : call) : flag_quiet (W:=W) (do_call ext c).
Proof.
  intros s a s' [= _ <-]. cbn [otTaskPending trace after_call].
  split; [reflexivity|]. rewrite flag_stores_snoc. cbn. by rewrite app_nil_r.
Qed.

Lemma flag_quiet_msg_receive (m : msg_t) : flag_quiet (W:=W) (msg_receive m).
Proof.
  intros s a s' [= _ <-]. cbn [otTaskPending trace emit].
  split; [reflexivity|]. rewrite flag_stores_snoc. cbn. by rewrite app_nil_r.
Qed.

Lemma flag_quiet_set__event_pid (v : Z) : flag_quiet (W:=W) (set__event_pid v).
Proof. intros s a s' [= _ <-]. done. Qed.

Lemma flag_quiet_set__ot_task_pid (v : Z) : flag_quiet (W:=W) (set__ot_task_pid v).
Proof. intros s a s' [= _ <-]. done. Qed.

Lemma flag_quiet_set_sInstance (v : Z) : flag_quiet (W:=W) (set_sInstance v).
Proof. intros s a s' [= _ <-]. done. Qed.

Lemma flag_quiet_decrement_pending_irq : flag_quiet (W:=W) decrement_pending_irq.
Proof.
  intros s a s' [= _ <-]. cbn [otTaskPending trace emit].
  split; [reflexivity|]. rewrite flag_stores_snoc. cbn. by rewrite app_nil_r.
Qed.

Lemma flag_quiet_load_serial (p : Z) : flag_quiet (W:=W) (load_serial p).
Proof.
  intros s a s'. unfold load_serial.
  destruct (serial_bufs s !! p); [|discriminate]. intros [= _ <-]. done.
Qed.

Lemma flag_quiet_load_job (p : Z) : flag_quiet (W:=W) (load_job p).
Proof.
  intros s a s'. unfold load_job.
  destruct (jobs s !! p); [|discriminate]. intros [= _ <-]. done.
Qed.

Lemma flag_quiet_set_serial_buffer_status (p v : Z) :
  flag_quiet (W:=W) (set_serial_buffer_status p v).
Proof.
  intros s a s'. unfold set_serial_buffer_status.
  destruct (serial_bufs s !! p); [|discriminate]. intros [= _ <-].
  cbn [otTaskPending trace emit].
  split; [reflexivity|]. rewrite flag_stores_snoc. cbn. by rewrite app_nil_r.
Qed.

Lemma flag_quiet_when {b : bool} (m : @M W unit) : flag_quiet m -> flag_quiet (when b m).
Proof. destruct b; [done|]. intros _. apply flag_quiet_ret. Qed.

Create HintDb flag_quiet_db.
#[local] Hint Resolve
  @flag_quiet_ret @flag_quiet_gets flag_quiet_do_call flag_quiet_msg_receive
  flag_quiet_set__event_pid flag_quiet_set__ot_task_pid flag_quiet_set_sInstance
  flag_quiet_decrement_pending_irq flag_quiet_load_serial flag_quiet_load_job
  flag_quiet_set_serial_buffer_status : flag_quiet_db.

(** Walk a computation built from the primitives above. *)
Ltac quiet :=
  repeat first
    [ apply flag_quiet_bind; [|intros ?]
    | apply flag_quiet_when
    | match goal with |- flag_quiet (if ?b then _ else _) => destruct b end
    | solve [auto with flag_quiet_db] ].

Lemma flag_quiet_drain_tasklets (fuel : nat) : flag_quiet (W:=W) (drain_tasklets ext fuel).
Proof.
  induction fuel as [|n IH]; [intros s a s'; discriminate|].
  cbn [drain_tasklets]. unfold openthread_get_instance. quiet.
Qed.

Lemma flag_quiet_otTaskletsSignalPending (self aInstance : Z) :
  flag_quiet (W:=W) (otTaskletsSignalPending ext self aInstance).
Proof. unfold otTaskletsSignalPending, openthread_get_event_pid. quiet. Qed.

Lemma flag_quiet_event_switch (msg : msg_t) : flag_quiet (W:=W) (event_switch ext cfg msg).
Proof. unfold event_switch, openthread_get_instance. quiet. Qed.

Lemma flag_quiet_event_loop (fuel : nat) (inbox : list msg_t) :
  flag_quiet (W:=W) (event_loop ext cfg fuel inbox).
Proof.
  induction inbox as [|msg rest IH]; cbn [event_loop].
  - apply flag_quiet_bind; [apply flag_quiet_drain_tasklets|intros; quiet].
  - apply flag_quiet_bind; [apply flag_quiet_drain_tasklets|intros _].
    apply flag_quiet_bind; [quiet|intros _].
    apply flag_quiet_bind; [apply flag_quiet_event_switch|intros _]. exact IH.
Qed.

Lemma flag_quiet__openthread_event_thread (self : Z) (fuel : nat) (inbox : list msg_t) :
  flag_quiet (W:=W) (_openthread_event_thread ext cfg self fuel inbox).
Proof.
  unfold _openthread_event_thread.
  repeat (apply flag_quiet_bind; [quiet|intros ?]).
  apply flag_quiet_event_loop.
Qed.

Lemma flag_quiet_openthread_event_init (stack stacksize priority : Z) (name : string) :
  flag_quiet (W:=W) (openthread_event_init ext stack stacksize priority name).
Proof. unfold openthread_event_init. quiet. Qed.

Lemma flag_quiet_openthread_task_init (stack stacksize priority : Z) (name : string) :
  flag_quiet (W:=W) (openthread_task_init ext stack stacksize priority name).
Proof. unfold openthread_task_init. quiet. Qed.

Lemma bind_Done {A B} (m : @M W A) (k : A -> @M W B) (s s' : state) (b : B) :
  bind m k s = Done (b, s') ->
  exists a s1, m s = Done (a, s1) /\ k a s1 = Done (b, s').
Proof.
  unfold bind. destruct (m s) as [[a s1]| |]; try discriminate. eauto.
Qed.

Lemma bind_ext {A B} (m : @M W A) (k1 k2 : A -> @M W B) (s : state) :
  (forall a s1, k1 a s1 = k2 a s1) -> bind m k1 s = bind m k2 s.
Proof. intros H. unfold bind. destruct (m s) as [[a s1]| |]; auto. Qed.

Lemma bind_assoc {A B C} (m : @M W A) (k : A -> @M W B) (k' : B -> @M W C)
    (s : state) :
  bind (bind m k) k' s = bind m (fun a => bind (k a) k') s.
Proof. unfold bind. destruct (m s) as [[a s1]| |]; reflexivity. Qed.

(** The task worker's [switch] writes the flag in the tasklet-pending case,
    with [false], and in no other case. *)
Lemma task_switch_flag (msg : msg_t) (s s' : state) (a : unit) :
  task_switch ext cfg msg s = Done (a, s') ->
  if type msg =? OPENTHREAD_TASK_MSG_TYPE_EVENT
  then otTaskPending s' = false
       /\ flag_stores (trace s') = flag_stores (trace s) ++ [0]
  else otTaskPending s' = otTaskPending s
       /\ flag_stores (trace s') = flag_stores (trace s).
Proof.
  unfold task_switch.
  destruct (type msg =? OPENTHREAD_TASK_MSG_TYPE_EVENT).
  - intros [= _ <-]. cbn [otTaskPending trace emit]. split; [reflexivity|].
    by rewrite flag_stores_snoc.
  - revert s a s'.
    match goal with
    | |- forall s a s', ?m s = Done (a, s') -> _ => change (flag_quiet (W:=W) m)
    end.
    unfold openthread_get_instance. quiet.
Qed.

Lemma task_iteration_flag (fuel : nat) (msg : msg_t) (s s' : state) (a : unit) :
  task_iteration ext cfg fuel msg s = Done (a, s') ->
  if type msg =? OPENTHREAD_TASK_MSG_TYPE_EVENT
  then otTaskPending s' = false
       /\ flag_stores (trace s') = flag_stores (trace s) ++ [0]
  else otTaskPending s' = otTaskPending s
       /\ flag_stores (trace s') = flag_stores (trace s).
Proof.
  unfold task_iteration. intros H.
  apply bind_Done in H as (? & s1 & H1 & H).
  apply bind_Done in H as (? & s2 & H2 & H).
  apply bind_Done in H as (? & s3 & H3 & H).
  apply bind_Done in H as (? & s4 & H4 & H).
  apply bind_Done in H as (? & s5 & H5 & H).
  injection H as _ <-.
  apply flag_quiet_msg_receive in H1 as [F1 T1].
  apply flag_quiet_do_call in H2 as [F2 T2].
  apply task_switch_flag in H3.
  apply flag_quiet_drain_tasklets in H4 as [F4 T4].
  apply flag_quiet_do_call in H5 as [F5 T5].
  rewrite F5, T5, F4, T4, <- F1, <- T1, <- F2, <- T2. exact H3.
Qed.

Lemma task_loop_flag (fuel : nat) (inbox : list msg_t) (s s' : state) (a : unit) :
  task_loop ext cfg fuel inbox s = Done (a, s') ->
  flag_stores (trace s')
  = flag_stores (trace s) ++ repeat 0 (clears (op_task_thread 0 fuel inbox))
  /\ otTaskPending s'
     = match clears (op_task_thread 0 fuel inbox) with
       | O => otTaskPending s
       | S _ => false
       end.
Proof.
  revert s. induction inbox as [|msg rest IH]; intros s; cbn [task_loop].
  - intros [= _ <-]. cbn. by rewrite app_nil_r.
  - intros H. apply bind_Done in H as (? & s1 & H1 & H).
    apply task_iteration_flag in H1. apply IH in H as [HT HF].
    cbn [clears List.filter] in *.
    destruct (type msg =? OPENTHREAD_TASK_MSG_TYPE_EVENT).
    + destruct H1 as [F1 T1]. cbn [List.length repeat].
      rewrite HT, T1, <- app_assoc. split; [reflexivity|].
      rewrite HF, F1. by destruct (List.length _).
    + destruct H1 as [F1 T1]. by rewrite HT, HF, T1, F1.
Qed.

(** How often an operation writes [otTaskPending], and what it leaves in it. *)
Lemma operation_flag_count (o : operation) (s s' : state) (r : Z) :
  run_operation ext cfg o s = Done (r, s') ->
  flag_stores (trace s') = flag_stores (trace s) ++ repeat 0 (clears o)
  /\ otTaskPending s' = match clears o with
                        | O => otTaskPending s
                        | S _ => false
                        end.
Proof.
  assert (Q : forall (m : @M W Z), flag_quiet m -> m s = Done (r, s') ->
              flag_stores (trace s') = flag_stores (trace s) ++ []
              /\ otTaskPending s' = otTaskPending s).
  { intros m Hm H. apply Hm in H as [-> ->]. by rewrite app_nil_r. }
  destruct o; cbn [run_operation clears repeat]; try (apply Q; clear Q).
  - apply flag_quiet_gets.
  - apply flag_quiet_gets.
  - apply flag_quiet_gets.
  - apply flag_quiet_bind; [apply flag_quiet_otTaskletsSignalPending|intros; quiet].
  - apply flag_quiet_openthread_event_init.
  - apply flag_quiet_openthread_task_init.
  - apply flag_quiet_bind; [apply flag_quiet__openthread_event_thread|intros; quiet].
  - clear Q. intros H. apply bind_Done in H as ([] & s3 & H & [= _ <-]).
    unfold _openthread_task_thread in H.
    apply bind_Done in H as (? & s1 & H1 & H).
    apply bind_Done in H as (? & s2 & H2 & H).
    apply flag_quiet_set__ot_task_pid in H1 as [F1 T1].
    apply flag_quiet_do_call in H2 as [F2 T2].
    apply task_loop_flag in H. cbn [clears] in H.
    by rewrite <- F1, <- T1, <- F2, <- T2.
Qed.

(** ** The cases of the event worker's [switch] *)

(** C8 (amended): on a radio-driver-event message the event worker calls the
    driver's [isr]; on FTD builds it then decrements [pending_irq] once,
    between [irq_disable] and [irq_restore], when the message's value is not
    zero, and leaves the counter alone when the value is zero (as it does on
    builds without [MODULE_OPENTHREAD_FTD]). *)
Theorem event_netdev_isr_and_guarded_decrement (msg : msg_t) (s : state) :
  tags_distinct ->
  type msg = OPENTHREAD_NETDEV_MSG_TYPE_EVENT ->
  let s1 := after_call ext netdev_isr s in
  let st := ext_ret ext irq_disable s1 in
  exists s' r,
    event_switch ext cfg msg s = Done (tt, s')
    /\ if MODULE_OPENTHREAD_FTD cfg && negb (content msg =? 0)
       then trace s' = trace s ++ [Call netdev_isr (ext_ret ext netdev_isr s);
                                   Call irq_disable st;
                                   Store loc_pending_irq (decr_wrap (pending_irq s));
                                   Call (irq_restore st) r]
            /\ pending_irq s' = decr_wrap (pending_irq s)
       else s' = s1
            /\ trace s' = trace s ++ [Call netdev_isr (ext_ret ext netdev_isr s)]
            /\ pending_irq s' = pending_irq s.
Proof.
  intros Hd Hty s1 st. distinct_tags Hd.
  unfold event_switch. rewrite Hty. tag_cases. run.
  destruct (MODULE_OPENTHREAD_FTD cfg); cbn [andb];
    [destruct (content msg =? 0); cbn [negb]|].
  - eexists _, 0. split; [reflexivity|]. done.
  - eexists _, _. split; [reflexivity|]. fields.
    split; [|reflexivity]. rewrite <- !app_assoc. reflexivity.
  - eexists _, 0. split; [reflexivity|]. done.
Qed.

Lemma replies_snoc (t : list event) (e : event) :
  replies (t ++ [e]) = replies t ++ replies [e].
Proof. apply omap_app. Qed.

Lemma to_uint32_small (r : Z) : 0 <= r < 2 ^ 32 -> to_uint32 r = r.
Proof. intros H. unfold to_uint32. by apply Z.mod_small. Qed.

(** C5: on a job-request message the event worker runs [ot_exec_command] on
    the stack instance with the job's command, argument and answer buffer,
    and sends exactly one reply, to the message that carried the request,
    whose value is the result of that execution (as stored in the unsigned
    32-bit [content.value]). *)
Theorem event_job_executes_and_replies_once (msg : msg_t) (s : state) (job : ot_job_t) :
  tags_distinct ->
  type msg = OPENTHREAD_JOB_MSG_TYPE_EVENT ->
  jobs s !! content msg = Some job ->
  let c := ot_exec_command (sInstance s) (command job) (arg job) (answer job) in
  let r := ext_ret ext c s in
  exists s' r',
    event_switch ext cfg msg s = Done (tt, s')
    /\ trace s' = trace s ++ [Call c r; Call (msg_reply msg (to_uint32 r)) r']
    /\ replies (trace s') = replies (trace s) ++ [(msg, to_uint32 r)]
    /\ (0 <= r < 2 ^ 32 -> to_uint32 r = r).
Proof.
  intros Hd Hty Hjob c r. distinct_tags Hd.
  unfold event_switch. rewrite Hty. tag_cases. run. rewrite Hjob. fields.
  eexists _, _. split; [reflexivity|]. fields.
  split; [by rewrite <- app_assoc|].
  split; [|apply to_uint32_small].
  by rewrite !replies_snoc, <- app_assoc.
Qed.

(** C6: on a serial-data message the event worker hands the buffer's bytes
    and length to [otPlatUartReceived] and stores FREE into the slot's status
    only after that call; on a build with the watchdog, [wdt_clear] comes
    before both. *)
Theorem event_serial_feeds_uart_then_frees (msg : msg_t) (s : state) (sb : serial_msg_t) :
  tags_distinct ->
  type msg = OPENTHREAD_SERIAL_MSG_TYPE_EVENT ->
  serial_bufs s !! content msg = Some sb ->
  let s0 := if MODULE_OPENTHREAD_NCP_FTD cfg then after_call ext wdt_clear s else s in
  let c := otPlatUartReceived (buf sb) (length sb) in
  exists s',
    event_switch ext cfg msg s = Done (tt, s')
    /\ trace s' =
       trace s
       ++ (if MODULE_OPENTHREAD_NCP_FTD cfg
           then [Call wdt_clear (ext_ret ext wdt_clear s)] else [])
       ++ [Call c (ext_ret ext c s0);
           Store (loc_serial_buffer_status (content msg))
                 OPENTHREAD_SERIAL_BUFFER_STATUS_FREE]
    /\ serial_bufs (after_call ext c s0) !! content msg = Some sb
    /\ serial_bufs s' =
       <[content msg := with_status OPENTHREAD_SERIAL_BUFFER_STATUS_FREE sb]>
         (serial_bufs s).
Proof.
  intros Hd Hty Hsb s0 c. distinct_tags Hd.
  unfold event_switch. rewrite Hty. tag_cases. subst s0 c.
  destruct (MODULE_OPENTHREAD_NCP_FTD cfg); run; rewrite Hsb; fields;
    rewrite Hsb; (eexists; split; [reflexivity|]); fields.
  - split; [by rewrite <- !app_assoc|]. done.
  - split; [by rewrite <- !app_assoc|]. done.
Qed.

(** ** Transmit outcomes in both workers *)

(** C7: for a radio-busy and for a link-retry-timeout message the task
    worker's [switch] does what the event worker's does: one call of
    [sent_pkt] on [openthread_get_instance()], with the medium-busy outcome
    for radio-busy and the no-acknowledgement outcome for link-retry-timeout. *)
Theorem task_reports_tx_outcome_like_event (msg : msg_t) (s : state) :
  tags_distinct ->
  type msg = OPENTHREAD_NETDEV_MSG_TYPE_RADIO_BUSY
  \/ type msg = OPENTHREAD_LINK_RETRY_TIMEOUT ->
  let outcome := if type msg =? OPENTHREAD_NETDEV_MSG_TYPE_RADIO_BUSY
                 then NETDEV_EVENT_TX_MEDIUM_BUSY else NETDEV_EVENT_TX_NOACK in
  openthread_get_instance s = Done (sInstance s, s)
  /\ task_switch ext cfg msg s = event_switch ext cfg msg s
  /\ event_switch ext cfg msg s
     = Done (tt, after_call ext (sent_pkt (sInstance s) outcome) s).
Proof.
  intros Hd Hty outcome. distinct_tags Hd. subst outcome.
  split; [reflexivity|].
  unfold task_switch, event_switch.
  destruct Hty as [-> | ->]; tag_cases; run; done.
Qed.

(** ** Tags without a case label *)

Lemma event_switch_unmatched (msg : msg_t) (s : state) :
  type msg ∉ event_tags cfg -> event_switch ext cfg msg s = Done (tt, s).
Proof.
  unfold event_tags, event_switch. intros H.
  rewrite !not_elem_of_app, !not_elem_of_cons in H.
  destruct H as ((?&?&?&?&?&_) & HF & (?&?&_)).
  tag_cases.
  destruct (MODULE_OPENTHREAD_FTD cfg); cbn [andb]; [|reflexivity].
  apply not_elem_of_cons in HF as [? _]. tag_cases. reflexivity.
Qed.

Lemma task_switch_unmatched (msg : msg_t) (s : state) :
  type msg ∉ task_tags cfg -> task_switch ext cfg msg s = Done (tt, s).
Proof.
  unfold task_tags, task_switch. intros H.
  rewrite !not_elem_of_app, !not_elem_of_cons in H.
  destruct H as ((?&_) & HF & (?&?&?&_)).
  tag_cases.
  destruct (MODULE_OPENTHREAD_FTD cfg); cbn [andb]; [|reflexivity].
  apply not_elem_of_cons in HF as [? _]. tag_cases. reflexivity.
Qed.

Lemma task_tags_event_tags (t : Z) : t ∈ task_tags cfg -> t ∈ event_tags cfg.
Proof.
  unfold task_tags, event_tags.
  destruct (MODULE_OPENTHREAD_FTD cfg);
    rewrite !elem_of_app, !elem_of_cons, !elem_of_nil; tauto.
Qed.

(** C9: a message whose tag has no case label makes neither worker do
    anything in its [switch] (the state, trace included, is unchanged), and
    the loop goes on: the event worker continues with the rest of its queue
    after the receive, the task worker after its lock, drain and unlock. *)
Theorem unmatched_tag_is_ignored (fuel : nat) (msg : msg_t) (rest : list msg_t)
    (s : state) :
  type msg ∉ event_tags cfg ->
  event_switch ext cfg msg s = Done (tt, s)
  /\ task_switch ext cfg msg s = Done (tt, s)
  /\ event_loop ext cfg fuel (msg :: rest) s
     = bind (drain_tasklets ext fuel)
         (fun _ => bind (msg_receive msg)
         (fun _ => event_loop ext cfg fuel rest)) s
  /\ task_loop ext cfg fuel (msg :: rest) s
     = bind (msg_receive msg)
         (fun _ => bind (do_call ext openthread_coarse_lock_buffer_mutex)
         (fun _ => bind (drain_tasklets ext fuel)
         (fun _ => bind (do_call ext openthread_coarse_unlock_buffer_mutex)
         (fun _ => task_loop ext cfg fuel rest)))) s.
Proof.
  intros He.
  assert (Ht : type msg ∉ task_tags cfg)
    by (intros Hin; apply He, task_tags_event_tags, Hin).
  split; [by apply event_switch_unmatched|].
  split; [by apply task_switch_unmatched|].
  split.
  - cbn [event_loop]. apply bind_ext; intros _ s1. apply bind_ext; intros _ s2.
    unfold bind at 1. by rewrite event_switch_unmatched.
  - cbn [task_loop]. unfold task_iteration.
    rewrite bind_assoc. apply bind_ext; intros _ s1.
    rewrite bind_assoc. apply bind_ext; intros _ s2.
    rewrite bind_assoc. unfold bind at 1. rewrite task_switch_unmatched by done.
    rewrite bind_assoc. apply bind_ext; intros _ s3.
    rewrite bind_assoc. apply bind_ext; intros _ s4.
    reflexivity.
Qed.

(** ** Lock discipline of the task worker *)

(** What the task worker's [switch] logs: the radio triple in the
    radio-driver-event case, and nothing that touches the radio otherwise. *)
Lemma task_switch_trace (msg : msg_t) (s s' : state) :
  tags_distinct ->
  task_switch ext cfg msg s = Done (tt, s') ->
  exists sw,
    trace s' = trace s ++ sw
    /\ sInstance s' = sInstance s
    /\ lock_monitor (true, false) sw = Some (true, false)
    /\ (if type msg =? OPENTHREAD_NETDEV_MSG_TYPE_EVENT
        then exists a b c, sw = [Call lock_radio_mutex a; Call netdev_isr b;
                                 Call unlock_radio_mutex c]
        else List.filter touches_radio sw = [])
    /\ forallb (fun c => negb (is_coarse_mutex_call c)) (calls sw) = true
    /\ receives sw = [].
Proof.
  intros Hd. distinct_tags Hd. unfold task_switch.
  destruct (Z.eqb_spec (type msg) OPENTHREAD_NETDEV_MSG_TYPE_EVENT) as [E|E].
  - rewrite E. tag_cases. run. intros [= <-]. fields.
    eexists. split; [by rewrite <- !app_assoc|]. repeat split; eauto.
  - destruct (type msg =? OPENTHREAD_TASK_MSG_TYPE_EVENT);
      [|destruct (MODULE_OPENTHREAD_FTD cfg
                  && (type msg =? OPENTHREAD_MICROTIMER_MSG_TYPE_EVENT));
        [|destruct (type msg =? OPENTHREAD_NETDEV_MSG_TYPE_RADIO_BUSY);
          [|destruct (type msg =? OPENTHREAD_LINK_RETRY_TIMEOUT)]]];
      run; intros [= <-]; fields;
      try (eexists [_]; repeat split; reflexivity).
    exists []. by rewrite app_nil_r.
Qed.

Lemma drain_tasklets_Done (fuel : nat) (s s' : state) :
  drain_tasklets ext fuel s = Done (tt, s') ->
  exists dr w', drain_run ext fuel (sInstance s) (world s) = Some (dr, w')
                /\ s' = with_world s w' (trace s ++ dr)
                /\ drained (sInstance s) dr.
Proof.
  rewrite drain_tasklets_run.
  destruct (drain_run ext fuel _ _) as [[dr w']|] eqn:R; [|discriminate].
  intros [= <-]. eexists _, _. split; [reflexivity|]. split; [reflexivity|].
  eapply drain_run_drained, R.
Qed.

Lemma drained_no_coarse (inst : Z) (dr : list event) :
  drained inst dr ->
  forallb (fun c => negb (is_coarse_mutex_call c)) (calls dr) = true
  /\ receives dr = [].
Proof. induction 1 as [|r r' evs _ _ IH]; [done|exact IH]. Qed.

Lemma task_iteration_trace (fuel : nat) (msg : msg_t) (s s' : state) :
  tags_distinct ->
  task_iteration ext cfg fuel msg s = Done (tt, s') ->
  exists r1 r2 sw dr,
    trace s' = trace s
               ++ [Receive msg; Call openthread_coarse_lock_buffer_mutex r1]
               ++ sw ++ dr
               ++ [Call openthread_coarse_unlock_buffer_mutex r2]
    /\ drained (sInstance s) dr
    /\ List.filter touches_radio dr = []
    /\ (if type msg =? OPENTHREAD_NETDEV_MSG_TYPE_EVENT
        then exists a b c, sw = [Call lock_radio_mutex a; Call netdev_isr b;
                                 Call unlock_radio_mutex c]
        else List.filter touches_radio sw = [])
    /\ lock_monitor (true, false) (sw ++ dr) = Some (true, false)
    /\ lock_monitor (false, false)
         ([Receive msg; Call openthread_coarse_lock_buffer_mutex r1]
          ++ sw ++ dr ++ [Call openthread_coarse_unlock_buffer_mutex r2])
       = Some (false, false)
    /\ forallb (fun c => negb (is_coarse_mutex_call c)) (calls (sw ++ dr)) = true
    /\ receives (sw ++ dr) = [].
Proof.
  intros Hd H. unfold task_iteration in H.
  apply bind_Done in H as ([] & s1 & H1 & H).
  apply bind_Done in H as (r1 & s2 & H2 & H).
  apply bind_Done in H as ([] & s3 & H3 & H).
  apply bind_Done in H as ([] & s4 & H4 & H).
  apply bind_Done in H as (r2 & s5 & H5 & H).
  injection H as <-. injection H1 as <-. injection H2 as <- <-.
  injection H5 as <- <-.
  apply (task_switch_trace _ _ _ Hd) in H3 as (sw & T3 & I3 & L3 & R3 & N3 & V3).
  apply drain_tasklets_Done in H4 as (dr & w' & _ & -> & D4).
  fields_in T3. fields_in I3. fields_in D4. rewrite I3 in D4.
  assert (Ldr := drained_locked _ _ D4).
  destruct (drained_no_coarse _ _ D4) as [N4 V4].
  assert (Lsw : lock_monitor (true, false) (sw ++ dr) = Some (true, false))
    by (by rewrite lock_monitor_app, L3).
  exists (ext_ret ext openthread_coarse_lock_buffer_mutex (emit (Receive msg) s)).
  eexists _, sw, dr. fields. rewrite T3.
  split; [by rewrite <- !app_assoc|].
  split; [exact D4|].
  split; [clear -D4; induction D4; [reflexivity|exact IHD4]|].
  split; [exact R3|].
  split; [exact Lsw|].
  split; [cbn [app lock_monitor lock_step];
          rewrite app_assoc, lock_monitor_app, Lsw; reflexivity|].
  unfold calls, receives in *. rewrite !omap_app, forallb_app.
  unfold calls, receives in N3, V3, N4, V4. by rewrite N3, V3, N4, V4.
Qed.

(** Over a whole run of the task worker's loop the locks are taken and
    released in the same discipline, and every receive happens with both
    mutexes released. *)
Lemma task_loop_locks (fuel : nat) (inbox : list msg_t) (s s' : state) :
  tags_distinct ->
  task_loop ext cfg fuel inbox s = Done (tt, s') ->
  exists new, trace s' = trace s ++ new
              /\ lock_monitor (false, false) new = Some (false, false).
Proof.
  intros Hd. revert s. induction inbox as [|msg rest IH]; intros s H; cbn [task_loop] in H.
  - injection H as <-. exists []. by rewrite app_nil_r.
  - apply bind_Done in H as ([] & s1 & H1 & H).
    apply (task_iteration_trace _ _ _ _ Hd) in H1
      as (r1 & r2 & sw & dr & T1 & _ & _ & _ & _ & L1 & _).
    destruct (IH _ H) as (new & T & L).
    eexists (_ ++ new). split; [by rewrite T, T1, <- app_assoc|].
    by rewrite lock_monitor_app, L1.
Qed.

(** C4: one turn of the task worker's loop takes the coarse buffer mutex
    right after the receive, keeps it through the tag dispatch and the whole
    tasklet drain (between that lock and the closing unlock there is no
    other lock or unlock of the coarse mutex and no receive), and releases
    it as its last step; the radio mutex is taken only for a radio-driver
    event, inside the coarse mutex, around the single [isr] call. *)
Theorem task_iteration_lock_discipline (fuel : nat) (msg : msg_t) (s s' : state) :
  tags_distinct ->
  task_iteration ext cfg fuel msg s = Done (tt, s') ->
  exists r1 r2 sw dr,
    trace s' = trace s
               ++ [Receive msg; Call openthread_coarse_lock_buffer_mutex r1]
               ++ sw ++ dr
               ++ [Call openthread_coarse_unlock_buffer_mutex r2]
    /\ drained (sInstance s) dr
    /\ List.filter touches_radio dr = []
    /\ (if type msg =? OPENTHREAD_NETDEV_MSG_TYPE_EVENT
        then exists a b c, sw = [Call lock_radio_mutex a; Call netdev_isr b;
                                 Call unlock_radio_mutex c]
        else List.filter touches_radio sw = [])
    /\ lock_monitor (true, false) (sw ++ dr) = Some (true, false)
    /\ lock_monitor (false, false)
         ([Receive msg; Call openthread_coarse_lock_buffer_mutex r1]
          ++ sw ++ dr ++ [Call openthread_coarse_unlock_buffer_mutex r2])
       = Some (false, false)
    /\ forallb (fun c => negb (is_coarse_mutex_call c)) (calls (sw ++ dr)) = true
    /\ receives (sw ++ dr) = [].
Proof. apply task_iteration_trace. Qed.

(** ** The event worker blocks only on a drained stack *)

Section LogsOnly.

Variable P : event -> Prop.

Lemma logs_only_ret {A} (a : A) : logs_only (W:=W) P (ret a).
Proof. intros s a' s' [= _ <-]. exists []. by rewrite app_nil_r. Qed.

Lemma logs_only_gets {A} (f : @state W -> A) : logs_only P (gets f).
Proof. intros s a' s' [= _ <-]. exists []. by rewrite app_nil_r. Qed.

Lemma logs_only_bind {A B} (m : @M W A) (k : A -> @M W B) :
  logs_only P m -> (forall a, logs_only P (k a)) -> logs_only P (bind m k).
Proof.
  intros Hm Hk s b s' H. apply bind_Done in H as (a & s1 & H1 & H2).
  destruct (Hm _ _ _ H1) as (e1 & T1 & F1).
  destruct (Hk _ _ _ _ H2) as (e2 & T2 & F2).
  exists (e1 ++ e2). split; [by rewrite T2, T1, app_assoc|]. by apply Forall_app.
Qed.

Lemma logs_only_do_call (c : call) :
  (forall r, P (Call c r)) -> logs_only (W:=W) P (do_call ext c).
Proof. intros H s a s' [= _ <-]. eexists [_]. split; [reflexivity|]. auto. Qed.

Lemma logs_only_load_serial (p : Z) : logs_only (W:=W) P (load_serial p).
Proof.
  intros s a s'. unfold load_serial.
  destruct (serial_bufs s !! p); [|discriminate].
  intros [= _ <-]. exists []. by rewrite app_nil_r.
Qed.

Lemma logs_only_load_job (p : Z) : logs_only (W:=W) P (load_job p).
Proof.
  intros s a s'. unfold load_job.
  destruct (jobs s !! p); [|discriminate].
  intros [= _ <-]. exists []. by rewrite app_nil_r.
Qed.

Lemma logs_only_store_status (p v : Z) :
  P (Store (loc_serial_buffer_status p) v) ->
  logs_only (W:=W) P (set_serial_buffer_status p v).
Proof.
  intros H s a s'. unfold set_serial_buffer_status.
  destruct (serial_bufs s !! p); [|discriminate].
  intros [= _ <-]. eexists [_]. split; [reflexivity|]. auto.
Qed.

Lemma logs_only_decrement_pending_irq :
  (forall v, P (Store loc_pending_irq v)) ->
  logs_only (W:=W) P decrement_pending_irq.
Proof. intros H s a s' [= _ <-]. eexists [_]. split; [reflexivity|]. auto. Qed.

End LogsOnly.

Lemma event_switch_no_receive (msg : msg_t) :
  logs_only (W:=W) (fun e => ~ is_receive e) (event_switch ext cfg msg).
Proof.
  unfold event_switch, openthread_get_instance.
  repeat first
    [ apply logs_only_bind; [|intros ?]
    | match goal with |- logs_only _ (if ?b then _ else _) => destruct b end
    | apply logs_only_ret
    | apply logs_only_gets
    | apply logs_only_do_call; intros ?
    | apply logs_only_load_serial
    | apply logs_only_load_job
    | apply logs_only_store_status
    | apply logs_only_decrement_pending_irq; intros ?
    | exact (fun F : False => F) ].
Qed.

Lemma quiet_monitor_no_receive (q : bool) (t : list event) :
  Forall (fun e => ~ is_receive e) t -> is_Some (quiet_monitor q t).
Proof.
  intros H. revert q. induction H as [|e t He _ IH]; intros q; [by eexists|].
  cbn [quiet_monitor].
  destruct e as [[] ?|?|? ?]; cbn [quiet_step]; try apply IH.
  exfalso. apply He. exact I.
Qed.

Lemma event_loop_quiet (fuel : nat) (inbox : list msg_t) (s s' : state) (q : bool) :
  event_loop ext cfg fuel inbox s = Done (tt, s') ->
  exists dr w' rest,
    drain_run ext fuel (sInstance s) (world s) = Some (dr, w')
    /\ drained (sInstance s) dr
    /\ trace s' = trace s ++ dr ++ rest
    /\ quiet_monitor q (dr ++ rest) = Some true.
Proof.
  revert s q. induction inbox as [|msg inbox IH]; intros s q H; cbn [event_loop] in H.
  - apply bind_Done in H as ([] & s1 & H1 & [= <-]).
    apply drain_tasklets_Done in H1 as (dr & w' & R & -> & D).
    exists dr, w', []. rewrite app_nil_r. repeat split; try done.
    eapply drained_quiet, D.
  - apply bind_Done in H as ([] & s1 & H1 & H).
    apply bind_Done in H as ([] & s2 & H2 & H).
    apply bind_Done in H as ([] & s3 & H3 & H).
    apply drain_tasklets_Done in H1 as (dr & w' & R & -> & D).
    injection H2 as <-.
    apply event_switch_no_receive in H3 as (sw & T3 & F3).
    destruct (quiet_monitor_no_receive false sw F3) as [q' Hq'].
    destruct (IH _ q' H) as (dr' & _ & rest' & _ & _ & T & Hm).
    exists dr, w', ([Receive msg] ++ sw ++ dr' ++ rest').
    split; [exact R|]. split; [exact D|]. split.
    + rewrite T, T3. fields. by rewrite <- !app_assoc.
    + rewrite quiet_monitor_app, (drained_quiet _ _ q D).
      cbn [app quiet_monitor quiet_step].
      by rewrite quiet_monitor_app, Hq'.
Qed.

(** C3: in a run of the event worker's loop every [msg_receive], and the
    final block on the emptied queue as well, comes right after the stack
    answered that no tasklet is pending; each turn starts with the drain
    loop, which calls [otTaskletsProcess] once for every "pending" answer. *)
Theorem event_worker_drains_before_receive (fuel : nat) (inbox : list msg_t)
    (s s' : state) :
  event_loop ext cfg fuel inbox s = Done (tt, s') ->
  exists dr w' rest,
    drain_run ext fuel (sInstance s) (world s) = Some (dr, w')
    /\ drained (sInstance s) dr
    /\ trace s' = trace s ++ dr ++ rest
    /\ quiet_monitor false (dr ++ rest) = Some true.
Proof. apply event_loop_quiet. Qed.

(** Enough fuel gives the result: when the stack quiesces after [k] rounds,
    the drain loop finishes under any budget above [k]. *)
Lemma drain_tasklets_total (k fuel : nat) (s : state) :
  quiesces_after ext k (sInstance s) (world s) -> (k < fuel)%nat ->
  exists dr w',
    drain_tasklets ext fuel s = Done (tt, with_world s w' (trace s ++ dr))
    /\ drained (sInstance s) dr
    /\ List.length dr = (2 * k + 1)%nat.
Proof.
  intros Hq Hlt.
  destruct (drain_run_total _ _ _ _ Hq Hlt) as (dr & w' & R & Hlen).
  exists dr, w'. rewrite drain_tasklets_run, R.
  split; [reflexivity|]. split; [|exact Hlen]. eapply drain_run_drained, R.
Qed.

(** * Further properties of the two files *)

Ltac run_in H :=
  cbv [bind ret gets modify do_call msg_receive when
       openthread_get_instance openthread_get_event_pid openthread_get_task_pid
       set__event_pid set__ot_task_pid set_sInstance set_otTaskPending
       decrement_pending_irq load_serial load_job set_serial_buffer_status] in H;
  cbn [_event_pid sInstance _ot_task_pid otTaskPending serial_bufs jobs
       pending_irq world trace after_call emit fst snd] in H.

(** Follow a straight-line computation through its tests, one branch per
    goal, keeping in the context what each test found. *)
Ltac branches H :=
  repeat (run_in H;
          first
            [ match type of H with
              | (if ?b then _ else _) _ = _ => destruct b eqn:?
              end
            | match type of H with
              | context [if ?b then _ else _] => destruct b eqn:?
              end
            | match type of H with
              | context [match ?m !! ?p with Some _ => _ | None => _ end] =>
                  destruct (m !! p) eqn:?
              end ]);
  try discriminate.

Lemma calls_snoc (t : list event) (e : event) : calls (t ++ [e]) = calls t ++ calls [e].
Proof. apply omap_app. Qed.

Lemma serial_payload_insert (m : gmap Z serial_msg_t) (p q v : Z) (b : serial_msg_t) :
  m !! p = Some b ->
  payload <$> (<[p := with_status v b]> m !! q) = payload <$> (m !! q).
Proof.
  intros H. destruct (decide (p = q)) as [->|Hne].
  - by rewrite lookup_insert_eq, H.
  - by rewrite lookup_insert_ne.
Qed.

(** What the event worker's [switch] leaves alone and what it may log. *)
Lemma event_switch_frame (msg : msg_t) (s s' : state) :
  event_switch ext cfg msg s = Done (tt, s') ->
  _event_pid s' = _event_pid s
  /\ sInstance s' = sInstance s
  /\ _ot_task_pid s' = _ot_task_pid s
  /\ jobs s' = jobs s
  /\ (forall q, payload <$> (serial_bufs s' !! q) = payload <$> (serial_bufs s !! q))
  /\ exists evs, trace s' = trace s ++ evs
                 /\ forallb (event_loop_event (sInstance s)) evs = true
                 /\ receives evs = [].
Proof.
  intros H. unfold event_switch in H. branches H; injection H as <-; fields;
    (repeat (split; [try reflexivity|]));
    try (intros q; by apply serial_payload_insert);
    try (exists []; split; [by rewrite app_nil_r|split; reflexivity]);
    (eexists; split; [rewrite <- ?app_assoc; reflexivity|];
     cbn; by rewrite ?Z.eqb_refl).
Qed.

(** What the task worker's [switch] leaves alone and what it may log. *)
Lemma task_switch_frame (msg : msg_t) (s s' : state) :
  task_switch ext cfg msg s = Done (tt, s') ->
  _event_pid s' = _event_pid s
  /\ sInstance s' = sInstance s
  /\ _ot_task_pid s' = _ot_task_pid s
  /\ serial_bufs s' = serial_bufs s
  /\ jobs s' = jobs s
  /\ pending_irq s' = pending_irq s
  /\ exists evs, trace s' = trace s ++ evs
                 /\ forallb (task_loop_event (sInstance s)) evs = true
                 /\ receives evs = [].
Proof.
  intros H. unfold task_switch in H. branches H; injection H as <-; fields;
    (repeat (split; [try reflexivity|]));
    try (exists []; split; [by rewrite app_nil_r|split; reflexivity]);
    (eexists; split; [rewrite <- ?app_assoc; reflexivity|];
     cbn; by rewrite ?Z.eqb_refl).
Qed.

Lemma drained_event_loop_event (inst : Z) (dr : list event) :
  drained inst dr -> forallb (event_loop_event inst) dr = true /\ receives dr = [].
Proof.
  induction 1 as [|r r' evs _ _ [IH1 IH2]]; cbn; rewrite ?Z.eqb_refl; [done|].
  split; [exact IH1|exact IH2].
Qed.

Lemma drained_task_loop_event (inst : Z) (dr : list event) :
  drained inst dr -> forallb (task_loop_event inst) dr = true /\ receives dr = [].
Proof.
  induction 1 as [|r r' evs _ _ [IH1 IH2]]; cbn; rewrite ?Z.eqb_refl; [done|].
  split; [exact IH1|exact IH2].
Qed.

Lemma receives_app (t1 t2 : list event) : receives (t1 ++ t2) = receives t1 ++ receives t2.
Proof. apply omap_app. Qed.

(** The event worker's loop: statics, job records and buffer contents stay;
    the log holds the queue's messages in order and permitted events only. *)
Lemma event_loop_frame (fuel : nat) (inbox : list msg_t) (s s' : state) :
  event_loop ext cfg fuel inbox s = Done (tt, s') ->
  _event_pid s' = _event_pid s
  /\ sInstance s' = sInstance s
  /\ _ot_task_pid s' = _ot_task_pid s
  /\ jobs s' = jobs s
  /\ (forall q, payload <$> (serial_bufs s' !! q) = payload <$> (serial_bufs s !! q))
  /\ exists evs, trace s' = trace s ++ evs
                 /\ forallb (event_loop_event (sInstance s)) evs = true
                 /\ receives evs = inbox.
Proof.
  revert s. induction inbox as [|msg rest IH]; intros s H; cbn [event_loop] in H.
  - apply bind_Done in H as ([] & s1 & H1 & [= <-]).
    apply drain_tasklets_Done in H1 as (dr & w' & _ & -> & D).
    apply drained_event_loop_event in D as [D1 D2]. fields.
    repeat (split; [reflexivity|]). by exists dr.
  - apply bind_Done in H as ([] & s1 & H1 & H).
    apply bind_Done in H as ([] & s2 & [= <-] & H).
    apply bind_Done in H as ([] & s3 & H3 & H).
    apply drain_tasklets_Done in H1 as (dr & w' & _ & -> & D).
    apply drained_event_loop_event in D as [D1 D2].
    apply event_switch_frame in H3 as (P3 & I3 & T3 & J3 & S3 & sw & E3 & A3 & R3).
    apply IH in H as (P & I & T & J & S & evs & E & A & R).
    fields_in P3. fields_in I3. fields_in T3. fields_in J3. fields_in S3.
    fields_in E3. fields_in A3.
    rewrite I3 in A.
    split; [congruence|]. split; [congruence|]. split; [congruence|].
    split; [congruence|]. split; [intros q; by rewrite S, S3|].
    exists (dr ++ [Receive msg] ++ sw ++ evs).
    split; [by rewrite E, E3, <- !app_assoc|].
    split.
    + rewrite !forallb_app, D1, A3, A. reflexivity.
    + rewrite !receives_app, D2, R3, R. reflexivity.
Qed.

Lemma task_iteration_frame (fuel : nat) (msg : msg_t) (s s' : state) :
  task_iteration ext cfg fuel msg s = Done (tt, s') ->
  _event_pid s' = _event_pid s
  /\ sInstance s' = sInstance s
  /\ _ot_task_pid s' = _ot_task_pid s
  /\ serial_bufs s' = serial_bufs s
  /\ jobs s' = jobs s
  /\ pending_irq s' = pending_irq s
  /\ exists evs, trace s' = trace s ++ evs
                 /\ forallb (task_loop_event (sInstance s)) evs = true
                 /\ receives evs = [msg].
Proof.
  intros H. unfold task_iteration in H.
  apply bind_Done in H as ([] & s1 & [= <-] & H).
  apply bind_Done in H as (r1 & s2 & [= <- <-] & H).
  apply bind_Done in H as ([] & s3 & H3 & H).
  apply bind_Done in H as ([] & s4 & H4 & H).
  apply bind_Done in H as (r2 & s5 & [= <- <-] & [= <-]).
  apply task_switch_frame in H3 as (P3 & I3 & T3 & B3 & J3 & Q3 & sw & E3 & A3 & R3).
  apply drain_tasklets_Done in H4 as (dr & w' & _ & -> & D).
  rewrite I3 in D. fields_in D.
  apply drained_task_loop_event in D as [D1 D2].
  fields_in P3. fields_in I3. fields_in T3. fields_in B3. fields_in J3.
  fields_in Q3. fields_in E3. fields_in A3. fields.
  repeat (split; [assumption|]).
  eexists ([Receive msg; Call openthread_coarse_lock_buffer_mutex _] ++ sw ++ dr
           ++ [Call openthread_coarse_unlock_buffer_mutex _]).
  split; [rewrite E3, <- !app_assoc; reflexivity|].
  split.
  - rewrite !forallb_app, A3, D1. reflexivity.
  - rewrite !receives_app, R3, D2. reflexivity.
Qed.

Lemma task_loop_frame (fuel : nat) (inbox : list msg_t) (s s' : state) :
  task_loop ext cfg fuel inbox s = Done (tt, s') ->
  _event_pid s' = _event_pid s
  /\ sInstance s' = sInstance s
  /\ _ot_task_pid s' = _ot_task_pid s
  /\ serial_bufs s' = serial_bufs s
  /\ jobs s' = jobs s
  /\ pending_irq s' = pending_irq s
  /\ exists evs, trace s' = trace s ++ evs
                 /\ forallb (task_loop_event (sInstance s)) evs = true
                 /\ receives evs = inbox.
Proof.
  revert s. induction inbox as [|msg rest IH]; intros s H; cbn [task_loop] in H.
  - injection H as <-. repeat (split; [reflexivity|]).
    exists []. by rewrite app_nil_r.
  - apply bind_Done in H as ([] & s1 & H1 & H).
    apply task_iteration_frame in H1
      as (P1 & I1 & T1 & B1 & J1 & Q1 & e1 & E1 & A1 & R1).
    apply IH in H as (P & I & T & B & J & Q & evs & E & A & R).
    rewrite I1 in A.
    repeat (split; [congruence|]).
    exists (e1 ++ evs). split; [by rewrite E, E1, <- app_assoc|].
    split; [by rewrite forallb_app, A1, A|].
    by rewrite receives_app, R1, R.
Qed.

(** The event thread's run, split where its loop starts. *)
Lemma event_thread_Done (self : Z) (fuel : nat) (inbox : list msg_t) (s s' : state) :
  _openthread_event_thread ext cfg self fuel inbox s = Done (tt, s') ->
  exists s0 r1 r2 conf,
    event_loop ext cfg fuel inbox s0 = Done (tt, s')
    /\ trace s0 = trace s
                  ++ [Call (msg_init_queue _openthread_event_thread_fn
                                           OPENTHREAD_EVENT_QUEUE_LEN) r1;
                      Call (xtimer_usleep 100000) r2;
                      Call otInstanceInitSingle (sInstance s0)]
                  ++ conf
    /\ calls ([Call (msg_init_queue _openthread_event_thread_fn
                                    OPENTHREAD_EVENT_QUEUE_LEN) r1;
               Call (xtimer_usleep 100000) r2;
               Call otInstanceInitSingle (sInstance s0)] ++ conf)
       = startup_calls cfg (sInstance s0)
    /\ forallb (uses_instance (sInstance s0)) conf = true
    /\ receives conf = []
    /\ _event_pid s0 = self
    /\ _ot_task_pid s0 = _ot_task_pid s
    /\ otTaskPending s0 = otTaskPending s
    /\ serial_bufs s0 = serial_bufs s
    /\ jobs s0 = jobs s
    /\ pending_irq s0 = pending_irq s.
Proof.
  intros H. unfold _openthread_event_thread in H. unfold startup_calls.
  branches H;
    match type of H with
    | event_loop _ _ _ _ ?s0 = _ => exists s0
    end;
    eexists _, _, _; (split; [exact H|]); fields;
    (split; [rewrite <- !app_assoc; reflexivity|]);
    cbn; rewrite ?Z.eqb_refl; repeat split; reflexivity.
Qed.

Lemma forallb_impl {A} (f g : A -> bool) (l : list A) :
  (forall x, f x = true -> g x = true) -> forallb f l = true -> forallb g l = true.
Proof.
  intros Hfg. induction l as [|x l IH]; [done|]. cbn.
  rewrite !andb_true_iff. intros [Hx Hl]. split; [by apply Hfg|by apply IH].
Qed.

Lemma event_loop_event_uses_instance (inst : Z) (e : event) :
  event_loop_event inst e = true -> uses_instance inst e = true.
Proof. destruct e as [[] ?|?|[] ?]; cbn; done. Qed.

Lemma task_loop_event_uses_instance (inst : Z) (e : event) :
  task_loop_event inst e = true -> uses_instance inst e = true.
Proof. destruct e as [[] ?|?|[] ?]; cbn; done. Qed.

(** ** The threads from their first statement *)

(** X1: before its loop the event thread publishes its own pid and then
    makes, in this order, the calls [msg_init_queue] (16 slots),
    [xtimer_usleep(100000)], [otInstanceInitSingle], [otLinkSetPanId],
    [otLinkSetChannel], then the CLI trio, the NCP pair and [diagInit] as the
    build enables them, each on the instance just created; no message is
    received before the loop. *)
Theorem event_thread_startup_sequence (self : Z) (fuel : nat) (inbox : list msg_t)
    (s s' : state) :
  _openthread_event_thread ext cfg self fuel inbox s = Done (tt, s') ->
  exists s0 evs,
    event_loop ext cfg fuel inbox s0 = Done (tt, s')
    /\ trace s0 = trace s ++ evs
    /\ calls evs = startup_calls cfg (sInstance s0)
    /\ In (Call otInstanceInitSingle (sInstance s0)) evs
    /\ receives evs = []
    /\ _event_pid s0 = self.
Proof.
  intros H.
  apply event_thread_Done in H
    as (s0 & r1 & r2 & conf & H & T & C & _ & R & P & _).
  exists s0. eexists. split; [exact H|]. split; [exact T|]. split; [exact C|].
  split; [cbn; tauto|]. split; [exact R|exact P].
Qed.

(** X2: in a whole run of the event thread the stack instance is created
    exactly once, before any call that takes an instance; every later call,
    in the start-up and in the loop, passes that instance, and at the end
    [sInstance] still holds it and [_event_pid] the thread's own pid. *)
Theorem event_thread_single_instance (self : Z) (fuel : nat) (inbox : list msg_t)
    (s s' : state) :
  _openthread_event_thread ext cfg self fuel inbox s = Done (tt, s') ->
  exists r1 r2 later,
    trace s' = trace s
               ++ [Call (msg_init_queue _openthread_event_thread_fn
                                        OPENTHREAD_EVENT_QUEUE_LEN) r1;
                   Call (xtimer_usleep 100000) r2;
                   Call otInstanceInitSingle (sInstance s')]
               ++ later
    /\ forallb (uses_instance (sInstance s')) later = true
    /\ receives later = inbox
    /\ _event_pid s' = self.
Proof.
  intros H.
  apply event_thread_Done in H
    as (s0 & r1 & r2 & conf & H & T & _ & U & R & P & _).
  apply event_loop_frame in H as (P' & I' & _ & _ & _ & evs & E & A & R').
  exists r1, r2, (conf ++ evs). rewrite I'.
  split; [by rewrite E, T, <- !app_assoc|].
  split; [|split; [by rewrite receives_app, R, R'|congruence]].
  rewrite forallb_app, U.
  eapply forallb_impl, A. apply event_loop_event_uses_instance.
Qed.

(** X3: a run of the task thread publishes its own pid, initialises a queue
    of 4 slots and then only loops: it never creates or configures a stack
    instance, every stack call it makes passes the instance found in
    [sInstance], which it leaves as it was, and it leaves the event worker's
    pid, the serial buffers, the job records and [pending_irq] untouched. *)
Theorem task_thread_run (self : Z) (fuel : nat) (inbox : list msg_t) (s s' : state) :
  _openthread_task_thread ext cfg self fuel inbox s = Done (tt, s') ->
  exists r evs,
    trace s' = trace s
               ++ Call (msg_init_queue _openthread_task_thread_fn
                                       OPENTHREAD_TASK_QUEUE_LEN) r :: evs
    /\ forallb (task_loop_event (sInstance s)) evs = true
    /\ forallb (uses_instance (sInstance s)) evs = true
    /\ receives evs = inbox
    /\ _ot_task_pid s' = self
    /\ sInstance s' = sInstance s
    /\ _event_pid s' = _event_pid s
    /\ serial_bufs s' = serial_bufs s
    /\ jobs s' = jobs s
    /\ pending_irq s' = pending_irq s.
Proof.
  intros H. unfold _openthread_task_thread in H.
  apply bind_Done in H as ([] & s1 & [= <-] & H).
  apply bind_Done in H as (r & s2 & [= <- <-] & H).
  apply task_loop_frame in H as (P & I & T & B & J & Q & evs & E & A & R).
  fields_in P. fields_in I. fields_in T. fields_in B. fields_in J. fields_in Q.
  fields_in E. fields_in A.
  exists (ext_ret ext (msg_init_queue _openthread_task_thread_fn
                                      OPENTHREAD_TASK_QUEUE_LEN)
                  (mkState (_event_pid s) (sInstance s) self (otTaskPending s)
                           (serial_bufs s) (jobs s) (pending_irq s) (world s)
                           (trace s))), evs.
  split; [by rewrite E, <- app_assoc|].
  split; [exact A|].
  split; [eapply forallb_impl, A; apply task_loop_event_uses_instance|].
  repeat (split; [assumption|]). assumption.
Qed.

(** X4: once the event thread has run, the tasklet-pending callback is a
    no-op when called from that thread, and from any other thread it sends
    one tasklet-pending message to that thread's pid. *)
Theorem signal_pending_after_event_thread (self other aInstance : Z) (fuel : nat)
    (inbox : list msg_t) (s s' : state) :
  _openthread_event_thread ext cfg self fuel inbox s = Done (tt, s') ->
  other <> self ->
  otTaskletsSignalPending ext self aInstance s' = Done (tt, s')
  /\ otTaskletsSignalPending ext other aInstance s'
     = Done (tt, after_call ext (msg_send OPENTHREAD_TASK_MSG_TYPE_EVENT self) s').
Proof.
  intros H Hne.
  apply event_thread_Done in H
    as (s0 & r1 & r2 & conf & H & _ & _ & _ & _ & P & _).
  apply event_loop_frame in H as (P' & _).
  assert (E : _event_pid s' = self) by congruence.
  unfold otTaskletsSignalPending. run. rewrite E, Z.eqb_refl.
  split; [reflexivity|].
  rewrite (proj2 (Z.eqb_neq other self) Hne). cbn [negb]. by rewrite E.
Qed.

(** ** What the loops keep and what they never do *)

Lemma event_loop_event_no_mutex (inst : Z) (evs : list event) :
  forallb (event_loop_event inst) evs = true ->
  forallb (fun c => negb (is_mutex_call c)) (calls evs) = true
  /\ flag_stores evs = [].
Proof.
  induction evs as [|e evs IH]; [done|]. cbn [forallb].
  rewrite andb_true_iff. intros [He Hl]. destruct (IH Hl) as [IH1 IH2].
  destruct e as [[] ?|?|[] ?]; cbn in *; try done.
Qed.

Lemma task_loop_event_no_reply (inst : Z) (evs : list event) :
  forallb (task_loop_event inst) evs = true -> replies evs = [].
Proof.
  induction evs as [|e evs IH]; [done|]. cbn [forallb].
  rewrite andb_true_iff. intros [He Hl]. specialize (IH Hl).
  destruct e as [[] ?|?|[] ?]; cbn in *; try done.
Qed.

(** X5: however many messages it handles, the event worker's loop leaves
    both pids, [sInstance], [otTaskPending] and every job record as they
    were, and changes no byte and no length of any serial buffer (only
    status fields). *)
Theorem event_loop_keeps_statics (fuel : nat) (inbox : list msg_t) (s s' : state) :
  event_loop ext cfg fuel inbox s = Done (tt, s') ->
  _event_pid s' = _event_pid s
  /\ sInstance s' = sInstance s
  /\ _ot_task_pid s' = _ot_task_pid s
  /\ otTaskPending s' = otTaskPending s
  /\ jobs s' = jobs s
  /\ forall q, payload <$> (serial_bufs s' !! q) = payload <$> (serial_bufs s !! q).
Proof.
  intros H. destruct (flag_quiet_event_loop _ _ _ _ _ H) as [F _].
  apply event_loop_frame in H as (P & I & T & J & S & _). tauto.
Qed.

(** X6: the event worker's loop receives the queued messages once each, in
    queue order; besides that it logs only tasklet checks and runs, the
    radio [isr], [irq_disable]/[irq_restore], [sent_pkt], the two alarm
    callbacks, [wdt_clear], [otPlatUartReceived], [ot_exec_command],
    [msg_reply] and stores to a buffer status or to [pending_irq], every
    stack call on the instance in [sInstance].  It never takes or releases a
    mutex and never stores to [otTaskPending]. *)
Theorem event_loop_permitted_events (fuel : nat) (inbox : list msg_t) (s s' : state) :
  event_loop ext cfg fuel inbox s = Done (tt, s') ->
  exists evs,
    trace s' = trace s ++ evs
    /\ forallb (event_loop_event (sInstance s)) evs = true
    /\ receives evs = inbox
    /\ forallb (fun c => negb (is_mutex_call c)) (calls evs) = true
    /\ flag_stores evs = [].
Proof.
  intros H. apply event_loop_frame in H as (_ & _ & _ & _ & _ & evs & E & A & R).
  exists evs. destruct (event_loop_event_no_mutex _ _ A). tauto.
Qed.

(** X7: the task worker's loop receives the queued messages once each, in
    queue order, and never answers one: it logs no [msg_reply] (nor any
    other call outside mutexes, [isr], [sent_pkt], the microsecond alarm
    and the tasklet drain), whatever the tags and payloads are. *)
Theorem task_loop_never_replies (fuel : nat) (inbox : list msg_t) (s s' : state) :
  task_loop ext cfg fuel inbox s = Done (tt, s') ->
  exists evs,
    trace s' = trace s ++ evs
    /\ forallb (task_loop_event (sInstance s)) evs = true
    /\ receives evs = inbox
    /\ replies evs = []
    /\ pending_irq s' = pending_irq s.
Proof.
  intros H.
  apply task_loop_frame in H as (_ & _ & _ & _ & _ & Q & evs & E & A & R).
  exists evs. pose proof (task_loop_event_no_reply _ _ A). tauto.
Qed.

(** ** The task worker's dispatch has no failing step *)

Lemma task_switch_total (msg : msg_t) (s : state) :
  exists s', task_switch ext cfg msg s = Done (tt, s').
Proof.
  unfold task_switch.
  repeat match goal with
         | |- context [if ?b then _ else _] => destruct b
         end; run; eexists; reflexivity.
Qed.

(** ** Counting over a run of the event worker *)

Lemma replies_app (t1 t2 : list event) : replies (t1 ++ t2) = replies t1 ++ replies t2.
Proof. apply omap_app. Qed.

Lemma drained_replies (inst : Z) (dr : list event) : drained inst dr -> replies dr = [].
Proof. induction 1; [reflexivity|]. assumption. Qed.

Lemma event_switch_replies (msg : msg_t) (s s' : state) :
  tags_distinct ->
  event_switch ext cfg msg s = Done (tt, s') ->
  exists rs, replies (trace s') = replies (trace s) ++ rs
             /\ rs.*1 = if type msg =? OPENTHREAD_JOB_MSG_TYPE_EVENT
                        then [msg] else [].
Proof.
  intros Hd. distinct_tags Hd.
  destruct (Z.eqb_spec (type msg) OPENTHREAD_JOB_MSG_TYPE_EVENT) as [E|E].
  - unfold event_switch. rewrite E. tag_cases. run.
    destruct (jobs s !! content msg); [|discriminate]. intros [= <-]. fields.
    eexists [_]. by rewrite !replies_snoc, <- app_assoc.
  - intros Hs. unfold event_switch in Hs. branches Hs;
      try (match goal with
           | E' : (type msg =? OPENTHREAD_JOB_MSG_TYPE_EVENT) = true |- _ =>
               apply Z.eqb_eq in E'; contradiction
           end);
      injection Hs as <-; fields; exists [];
      rewrite ?replies_snoc; cbn; by rewrite ?app_nil_r.
Qed.

Lemma event_switch_pending_irq (msg : msg_t) (s s' : state) :
  tags_distinct ->
  event_switch ext cfg msg s = Done (tt, s') ->
  pending_irq s'
  = if MODULE_OPENTHREAD_FTD cfg
       && ((type msg =? OPENTHREAD_NETDEV_MSG_TYPE_EVENT) && negb (content msg =? 0))
    then decr_wrap (pending_irq s) else pending_irq s.
Proof.
  intros Hd. distinct_tags Hd.
  destruct (Z.eqb_spec (type msg) OPENTHREAD_NETDEV_MSG_TYPE_EVENT) as [E|E].
  - unfold event_switch. rewrite E. tag_cases. run.
    destruct (MODULE_OPENTHREAD_FTD cfg); cbn [andb];
      [destruct (content msg =? 0); cbn [negb]|]; by intros [= <-].
  - rewrite andb_false_r. intros Hs. unfold event_switch in Hs. branches Hs;
      try (match goal with
           | E' : (type msg =? OPENTHREAD_NETDEV_MSG_TYPE_EVENT) = true |- _ =>
               apply Z.eqb_eq in E'; contradiction
           end);
      by injection Hs as <-.
Qed.

Lemma event_loop_counts (fuel : nat) (inbox : list msg_t) (s s' : state) :
  tags_distinct ->
  event_loop ext cfg fuel inbox s = Done (tt, s') ->
  (exists rs, replies (trace s') = replies (trace s) ++ rs
              /\ rs.*1 = job_requests inbox)
  /\ pending_irq s' = Nat.iter (counted_irqs cfg inbox) decr_wrap (pending_irq s).
Proof.
  intros Hd. revert s. induction inbox as [|msg rest IH]; intros s H; cbn [event_loop] in H.
  - apply bind_Done in H as ([] & s1 & H1 & [= <-]).
    apply drain_tasklets_Done in H1 as (dr & w' & _ & -> & D). fields.
    split.
    + exists []. by rewrite replies_app, (drained_replies _ _ D).
    + unfold counted_irqs. by destruct (MODULE_OPENTHREAD_FTD cfg).
  - apply bind_Done in H as ([] & s1 & H1 & H).
    apply bind_Done in H as ([] & s2 & [= <-] & H).
    apply bind_Done in H as ([] & s3 & H3 & H).
    apply drain_tasklets_Done in H1 as (dr & w' & _ & -> & D).
    pose proof (event_switch_replies _ _ _ Hd H3) as (r3 & R3 & F3).
    pose proof (event_switch_pending_irq _ _ _ Hd H3) as Q3.
    apply IH in H as [(rs & R & F) Q].
    fields_in R3. fields_in Q3.
    rewrite !replies_app, (drained_replies _ _ D) in R3. cbn in R3.
    rewrite !app_nil_r in R3.
    split.
    + exists (r3 ++ rs). split; [by rewrite R, R3, <- app_assoc|].
      rewrite fmap_app, F3, F. unfold job_requests. cbn [List.filter].
      by destruct (type msg =? OPENTHREAD_JOB_MSG_TYPE_EVENT).
    + rewrite Q, Q3. unfold counted_irqs. cbn [List.filter].
      destruct (MODULE_OPENTHREAD_FTD cfg); cbn [andb]; [|reflexivity].
      destruct ((type msg =? OPENTHREAD_NETDEV_MSG_TYPE_EVENT)
                && negb (content msg =? 0)); [|reflexivity].
      cbn [List.length]. by rewrite Nat.iter_succ_r.
Qed.

(** X10: over a run of the event worker's loop the replies it sends
    correspond one to one, in order, to the job-request messages of its
    queue: every job request is answered exactly once and no other message
    is answered. *)
Theorem event_loop_replies_to_jobs (fuel : nat) (inbox : list msg_t) (s s' : state) :
  tags_distinct ->
  event_loop ext cfg fuel inbox s = Done (tt, s') ->
  exists rs, replies (trace s') = replies (trace s) ++ rs
             /\ rs.*1 = job_requests inbox.
Proof. intros Hd H. exact (proj1 (event_loop_counts _ _ _ _ Hd H)). Qed.


(** ** Tags that only one worker knows, and the timers *)

(** X12: a millisecond-timer, serial-data or job-request message delivered
    to the task worker matches none of its case labels: the [switch] does
    nothing, so one turn of the loop is just receive, lock, drain, unlock,
    and a job request sent there is never answered. *)
Theorem task_ignores_event_only_tags (fuel : nat) (msg : msg_t) (s : state) :
  tags_distinct ->
  type msg = OPENTHREAD_MILLITIMER_MSG_TYPE_EVENT
  \/ type msg = OPENTHREAD_SERIAL_MSG_TYPE_EVENT
  \/ type msg = OPENTHREAD_JOB_MSG_TYPE_EVENT ->
  task_switch ext cfg msg s = Done (tt, s)
  /\ task_iteration ext cfg fuel msg s
     = bind (msg_receive msg)
         (fun _ => bind (do_call ext openthread_coarse_lock_buffer_mutex)
         (fun _ => bind (drain_tasklets ext fuel)
         (fun _ => bind (do_call ext openthread_coarse_unlock_buffer_mutex)
         (fun _ => ret tt)))) s.
Proof.
  intros Hd Hty. distinct_tags Hd.
  assert (Hs : forall s0 : state, task_switch ext cfg msg s0 = Done (tt, s0)).
  { intros s0. apply task_switch_unmatched. unfold task_tags.
    rewrite !not_elem_of_app, !not_elem_of_cons.
    destruct (MODULE_OPENTHREAD_FTD cfg);
      rewrite ?not_elem_of_cons; destruct Hty as [->| [->| ->]];
      repeat split; try apply not_elem_of_nil; congruence. }
  split; [apply Hs|].
  unfold task_iteration.
  apply bind_ext; intros _ s1. apply bind_ext; intros _ s2.
  unfold bind at 1. by rewrite Hs.
Qed.

(** X13: a microsecond-timer message is handled the same way by both
    workers: on an FTD build by one call of [otPlatAlarmMicroFired] on
    [openthread_get_instance()], on any other build not at all. *)
Theorem microtimer_in_both_workers (msg : msg_t) (s : state) :
  tags_distinct ->
  type msg = OPENTHREAD_MICROTIMER_MSG_TYPE_EVENT ->
  task_switch ext cfg msg s = event_switch ext cfg msg s
  /\ event_switch ext cfg msg s
     = Done (tt, if MODULE_OPENTHREAD_FTD cfg
                 then after_call ext (otPlatAlarmMicroFired (sInstance s)) s
                 else s).
Proof.
  intros Hd Hty. distinct_tags Hd. unfold task_switch, event_switch.
  rewrite Hty. tag_cases.
  destruct (MODULE_OPENTHREAD_FTD cfg); cbn [andb]; run; done.
Qed.

(** ** Start-up entry points *)

(** X15: [openthread_event_init] and [openthread_task_init] always return,
    and the result is either [-EINVAL], with a non-positive value left in
    the pid static, or a strictly positive pid equal to what the accessor
    then returns; the result is never 0. *)
Theorem init_result_sign (stack stacksize priority : Z) (name : string) (s : state) :
  (exists r s', openthread_event_init ext stack stacksize priority name s = Done (r, s')
                /\ (r = - EINVAL /\ _event_pid s' <= 0
                    \/ 0 < r /\ openthread_get_event_pid s' = Done (r, s'))
                /\ r <> 0)
  /\ (exists r s', openthread_task_init ext stack stacksize priority name s = Done (r, s')
                   /\ (r = - EINVAL /\ _ot_task_pid s' <= 0
                       \/ 0 < r /\ openthread_get_task_pid s' = Done (r, s'))
                   /\ r <> 0).
Proof.
  split.
  - unfold openthread_event_init. run.
    destruct (Z.leb_spec (ext_ret ext (thread_create stack stacksize priority
      THREAD_CREATE_STACKTEST _openthread_event_thread_fn name) s) 0);
      eexists _, _; (split; [reflexivity|]); fields; unfold EINVAL;
      (split; [first [left; split; [reflexivity|assumption]
                     |right; split; [assumption|reflexivity]]|lia]).
  - unfold openthread_task_init. run.
    destruct (Z.leb_spec (ext_ret ext (thread_create stack stacksize priority
      THREAD_CREATE_STACKTEST _openthread_task_thread_fn name) s) 0);
      eexists _, _; (split; [reflexivity|]); fields; unfold EINVAL;
      (split; [first [left; split; [reflexivity|assumption]
                     |right; split; [assumption|reflexivity]]|lia]).
Qed.

Lemma openthread_event_init_run (stack stacksize priority : Z) (name : string)
    (s : state) :
  let c := thread_create stack stacksize priority THREAD_CREATE_STACKTEST
                         _openthread_event_thread_fn name in
  openthread_event_init ext stack stacksize priority name s
  = Done (if ext_ret ext c s <=? 0 then - EINVAL else ext_ret ext c s,
          mkState (ext_ret ext c s) (sInstance s) (_ot_task_pid s) (otTaskPending s)
                  (serial_bufs s) (jobs s) (pending_irq s) (ext c (world s)).2
                  (trace s ++ [Call c (ext_ret ext c s)])).
Proof.
  intros c. unfold openthread_event_init. run. fold c.
  by destruct (ext_ret ext c s <=? 0).
Qed.

Lemma openthread_task_init_run (stack stacksize priority : Z) (name : string)
    (s : state) :
  let c := thread_create stack stacksize priority THREAD_CREATE_STACKTEST
                         _openthread_task_thread_fn name in
  openthread_task_init ext stack stacksize priority name s
  = Done (if ext_ret ext c s <=? 0 then - EINVAL else ext_ret ext c s,
          mkState (_event_pid s) (sInstance s) (ext_ret ext c s) (otTaskPending s)
                  (serial_bufs s) (jobs s) (pending_irq s) (ext c (world s)).2
                  (trace s ++ [Call c (ext_ret ext c s)])).
Proof.
  intros c. unfold openthread_task_init. run. fold c.
  by destruct (ext_ret ext c s <=? 0).
Qed.

(** X16: starting the event worker and then the task worker makes exactly
    two calls, [thread_create] with [THREAD_CREATE_STACKTEST] for the event
    thread function and then for the task thread function; each entry point
    writes only its own pid static, so afterwards both accessors return
    what the two creations answered and [sInstance], [otTaskPending] and
    the objects behind message pointers are as before. *)
Theorem init_both_workers (st1 sz1 pr1 st2 sz2 pr2 : Z) (n1 n2 : string) (s : state) :
  let c1 := thread_create st1 sz1 pr1 THREAD_CREATE_STACKTEST
                          _openthread_event_thread_fn n1 in
  let c2 := thread_create st2 sz2 pr2 THREAD_CREATE_STACKTEST
                          _openthread_task_thread_fn n2 in
  exists r1 r2 s1 s2,
    openthread_event_init ext st1 sz1 pr1 n1 s = Done (r1, s1)
    /\ openthread_task_init ext st2 sz2 pr2 n2 s1 = Done (r2, s2)
    /\ trace s2 = trace s ++ [Call c1 (_event_pid s2); Call c2 (_ot_task_pid s2)]
    /\ _ot_task_pid s1 = _ot_task_pid s
    /\ _event_pid s2 = _event_pid s1
    /\ sInstance s2 = sInstance s
    /\ otTaskPending s2 = otTaskPending s
    /\ serial_bufs s2 = serial_bufs s
    /\ jobs s2 = jobs s
    /\ pending_irq s2 = pending_irq s.
Proof.
  intros c1 c2. eexists _, _, _, _.
  split; [apply openthread_event_init_run|].
  split; [apply openthread_task_init_run|].
  fields. split; [by rewrite <- app_assoc|]. repeat split; reflexivity.
Qed.

(** ** More on the tasklet drain *)

(** X17: draining when the stack has nothing pending is one predicate
    check and nothing else: no [otTaskletsProcess], no change to the state
    of this layer, under any non-zero budget. *)
Theorem drain_without_pending_is_one_check (n : nat) (s : state) :
  ext_ret ext (otTaskletsArePending (sInstance s)) s = 0 ->
  drain_tasklets ext (S n) s
  = Done (tt, after_call ext (otTaskletsArePending (sInstance s)) s).
Proof.
  intros H. cbn [drain_tasklets]. run. by rewrite H.
Qed.

Lemma drain_run_rounds (k : nat) (inst : Z) (w : W) :
  quiesces_after ext k inst w ->
  exists dr w',
    (forall fuel, (k < fuel)%nat -> drain_run ext fuel inst w = Some (dr, w'))
    /\ calls dr = concat (repeat [otTaskletsArePending inst; otTaskletsProcess inst] k)
                  ++ [otTaskletsArePending inst].
Proof.
  revert w. induction k as [|k IH]; intros w Hq; cbn in Hq.
  - exists [Call (otTaskletsArePending inst) (ext (otTaskletsArePending inst) w).1],
           (ext (otTaskletsArePending inst) w).2.
    split; [|reflexivity].
    intros [|fuel] Hlt; [lia|]. cbn [drain_run]. by rewrite Hq.
  - destruct Hq as [Hne Hq]. destruct (IH _ Hq) as (dr & w' & Hrun & Hcalls).
    exists (Call (otTaskletsArePending inst) (ext (otTaskletsArePending inst) w).1
              :: Call (otTaskletsProcess inst)
                      (ext (otTaskletsProcess inst)
                           (ext (otTaskletsArePending inst) w).2).1
              :: dr), w'.
    split.
    2:{ match goal with
        | |- calls (?a :: ?b :: dr) = _ =>
            transitivity (calls [a; b] ++ calls dr);
            [exact (omap_app _ [a; b] dr)|by rewrite Hcalls]
        end. }
    intros [|fuel] Hlt; [lia|]. cbn [drain_run].
    destruct (Z.eqb_spec (ext (otTaskletsArePending inst) w).1 0) as [E|_]; [done|].
    by rewrite (Hrun fuel ltac:(lia)).
Qed.

(** X18: when the stack reports pending work [k] times and then none, the
    drain returns under every budget above [k], with the same result: it
    has called [otTaskletsProcess] exactly [k] times, each after a check,
    plus the closing check, and it has changed nothing of this layer's
    state but the log. *)
Theorem drain_exact_rounds (k : nat) (s : state) :
  quiesces_after ext k (sInstance s) (world s) ->
  exists dr w',
    (forall fuel, (k < fuel)%nat ->
       drain_tasklets ext fuel s = Done (tt, with_world s w' (trace s ++ dr)))
    /\ calls dr
       = concat (repeat [otTaskletsArePending (sInstance s);
                         otTaskletsProcess (sInstance s)] k)
         ++ [otTaskletsArePending (sInstance s)].
Proof.
  intros Hq. destruct (drain_run_rounds _ _ _ Hq) as (dr & w' & Hrun & Hcalls).
  exists dr, w'. split; [|exact Hcalls].
  intros fuel Hlt. by rewrite drain_tasklets_run, (Hrun fuel Hlt).
Qed.

Lemma drain_run_starved (fuel : nat) (inst : Z) (w : W) :
  (forall w0, (ext (otTaskletsArePending inst) w0).1 <> 0) ->
  drain_run ext fuel inst w = None.
Proof.
  intros Hb. revert w. induction fuel as [|n IH]; intros w; [reflexivity|].
  cbn [drain_run].
  destruct (Z.eqb_spec (ext (otTaskletsArePending inst) w).1 0) as [E|_];
    [by apply Hb in E|].
  by rewrite IH.
Qed.

(** X19: if the stack answers "pending" to every check, the drain never
    ends, whatever the budget: the event worker then never reaches
    [msg_receive], and the task worker, having received a message, never
    reaches the release of the coarse buffer mutex. *)
Theorem drain_starves_workers (fuel : nat) (msg : msg_t) (inbox : list msg_t) (s : state) :
  (forall w, (ext (otTaskletsArePending (sInstance s)) w).1 <> 0) ->
  drain_tasklets ext fuel s = OutOfFuel
  /\ event_loop ext cfg fuel inbox s = OutOfFuel
  /\ task_iteration ext cfg fuel msg s = OutOfFuel.
Proof.
  intros Hb.
  assert (Hd : forall s0 : state, sInstance s0 = sInstance s ->
                 drain_tasklets ext fuel s0 = OutOfFuel).
  { intros s0 E. rewrite drain_tasklets_run, drain_run_starved; [done|].
    by rewrite E. }
  split; [by apply Hd|]. split.
  - destruct inbox; cbn [event_loop]; unfold bind; by rewrite Hd.
  - unfold task_iteration. unfold bind at 1. cbn [msg_receive modify].
    unfold bind at 1. cbn [do_call].
    destruct (task_switch_total msg
                (after_call ext openthread_coarse_lock_buffer_mutex
                            (emit (Receive msg) s))) as [s3 H3].
    unfold bind at 1. rewrite H3.
    apply task_switch_frame in H3 as (_ & I3 & _).
    unfold bind. by rewrite Hd.
Qed.

(** ** Serial buffers *)

Lemma event_switch_serial (msg : msg_t) (s : state) (sb : serial_msg_t) :
  tags_distinct ->
  type msg = OPENTHREAD_SERIAL_MSG_TYPE_EVENT ->
  serial_bufs s !! content msg = Some sb ->
  exists s' pre r,
    event_switch ext cfg msg s = Done (tt, s')
    /\ trace s' = trace s ++ pre
                  ++ [Call (otPlatUartReceived (buf sb) (length sb)) r;
                      Store (loc_serial_buffer_status (content msg))
                            OPENTHREAD_SERIAL_BUFFER_STATUS_FREE]
    /\ calls pre = (if MODULE_OPENTHREAD_NCP_FTD cfg then [wdt_clear] else [])
    /\ serial_bufs s'
       = <[content msg := with_status OPENTHREAD_SERIAL_BUFFER_STATUS_FREE sb]>
           (serial_bufs s).
Proof.
  intros Hd Hty Hsb. distinct_tags Hd.
  unfold event_switch. rewrite Hty. tag_cases.
  destruct (MODULE_OPENTHREAD_NCP_FTD cfg); run; rewrite Hsb; fields; rewrite Hsb.
  - eexists _, [_], _. split; [reflexivity|]. fields.
    split; [by rewrite <- !app_assoc|]. done.
  - eexists _, [], _. split; [reflexivity|]. fields.
    split; [by rewrite <- !app_assoc|]. done.
Qed.

(** X20: the event worker does not look at a slot's status before it
    consumes it: a second serial-data message for the same slot, handled
    right after the first, feeds the same bytes and length to
    [otPlatUartReceived] once more and leaves the table of buffers as the
    first one left it (status FREE). *)
Theorem serial_message_replayed (msg : msg_t) (s : state) (sb : serial_msg_t) :
  tags_distinct ->
  type msg = OPENTHREAD_SERIAL_MSG_TYPE_EVENT ->
  serial_bufs s !! content msg = Some sb ->
  exists s1 s2 pre r,
    event_switch ext cfg msg s = Done (tt, s1)
    /\ serial_buffer_status <$> (serial_bufs s1 !! content msg)
       = Some OPENTHREAD_SERIAL_BUFFER_STATUS_FREE
    /\ event_switch ext cfg msg s1 = Done (tt, s2)
    /\ trace s2 = trace s1 ++ pre
                  ++ [Call (otPlatUartReceived (buf sb) (length sb)) r;
                      Store (loc_serial_buffer_status (content msg))
                            OPENTHREAD_SERIAL_BUFFER_STATUS_FREE]
    /\ calls pre = (if MODULE_OPENTHREAD_NCP_FTD cfg then [wdt_clear] else [])
    /\ serial_bufs s2 = serial_bufs s1.
Proof.
  intros Hd Hty Hsb.
  destruct (event_switch_serial msg s sb Hd Hty Hsb) as (s1 & pre1 & r1 & H1 & _ & _ & B1).
  assert (L1 : serial_bufs s1 !! content msg
               = Some (with_status OPENTHREAD_SERIAL_BUFFER_STATUS_FREE sb))
    by (by rewrite B1, lookup_insert_eq).
  destruct (event_switch_serial msg s1 _ Hd Hty L1) as (s2 & pre & r & H2 & T2 & C2 & B2).
  exists s1, s2, pre, r. split; [exact H1|]. split; [by rewrite L1|].
  split; [exact H2|]. split; [exact T2|]. split; [exact C2|].
  rewrite B2, B1. by rewrite insert_insert_eq.
Qed.

(** X14: over a whole run of the task worker's loop the mutexes follow one
    discipline: every message is received with both mutexes released, the
    radio mutex is only ever taken inside the coarse buffer mutex, the
    [isr] runs only under the radio mutex, every other call and store
    happens under the coarse buffer mutex alone, and both are released when
    the worker blocks again. *)
Theorem task_loop_lock_discipline (fuel : nat) (inbox : list msg_t) (s s' : state) :
  tags_distinct ->
  task_loop ext cfg fuel inbox s = Done (tt, s') ->
  exists new, trace s' = trace s ++ new
              /\ lock_monitor (false, false) new = Some (false, false).
Proof. apply task_loop_locks. Qed.

(** ** The place of the write to the pending-task flag *)

Section MoreLogsOnly.

Variable P : event -> Prop.

Lemma logs_only_modify_silent (f : @state W -> @state W) :
  (forall s, trace (f s) = trace s) -> logs_only P (modify f).
Proof.
  intros H s a s' [= _ <-]. exists []. by rewrite H, app_nil_r.
Qed.

Lemma logs_only_msg_receive (m : msg_t) :
  P (Receive m) -> logs_only (W:=W) P (msg_receive m).
Proof. intros H s a s' [= _ <-]. eexists [_]. split; [reflexivity|]. auto. Qed.

Lemma logs_only_when (b : bool) (m : @M W unit) :
  logs_only P m -> logs_only P (when b m).
Proof. destruct b; [done|]. intros _. apply logs_only_ret. Qed.

End MoreLogsOnly.

(** Walk a computation that logs only events satisfying a boolean test. *)
Ltac logs :=
  repeat first
    [ apply logs_only_bind; [|intros ?]
    | apply logs_only_when
    | match goal with |- logs_only _ (if ?b then _ else _) => destruct b end
    | apply logs_only_ret
    | apply logs_only_gets
    | apply logs_only_do_call; intros ?
    | apply logs_only_load_serial
    | apply logs_only_load_job
    | apply logs_only_store_status
    | apply logs_only_decrement_pending_irq; intros ?
    | apply logs_only_msg_receive
    | apply logs_only_modify_silent; intros ?
    | reflexivity ].

Lemma flag_free_drain_tasklets (fuel : nat) :
  logs_only (W:=W) (fun e => flag_free e = true) (drain_tasklets ext fuel).
Proof.
  induction fuel as [|n IH]; [intros s a s'; discriminate|].
  cbn [drain_tasklets]. unfold openthread_get_instance.
  apply logs_only_bind; [logs|intros inst].
  apply logs_only_bind; [logs|intros pending].
  destruct (pending =? 0); [logs|].
  apply logs_only_bind; [logs|intros inst'].
  apply logs_only_bind; [logs|intros _]. exact IH.
Qed.

Lemma flag_free_event_loop (fuel : nat) (inbox : list msg_t) :
  logs_only (W:=W) (fun e => flag_free e = true) (event_loop ext cfg fuel inbox).
Proof.
  induction inbox as [|msg rest IH]; cbn [event_loop].
  - apply logs_only_bind; [apply flag_free_drain_tasklets|intros; logs].
  - apply logs_only_bind; [apply flag_free_drain_tasklets|intros _].
    apply logs_only_bind; [logs|intros _].
    apply logs_only_bind; [|intros _; exact IH].
    unfold event_switch, openthread_get_instance. logs.
Qed.

Lemma flag_free_other_operations (o : operation) :
  (forall self fuel inbox, o <> op_task_thread self fuel inbox) ->
  logs_only (W:=W) (fun e => flag_free e = true) (run_operation ext cfg o).
Proof.
  intros Ho. destruct o; cbn [run_operation];
    unfold openthread_get_instance, openthread_get_event_pid,
           openthread_get_task_pid, otTaskletsSignalPending,
           openthread_event_init, openthread_task_init,
           set__event_pid, set__ot_task_pid, set_sInstance.
  - logs.
  - logs.
  - logs.
  - logs.
  - logs.
  - logs.
  - apply logs_only_bind; [|intros; logs]. unfold _openthread_event_thread.
    unfold set__event_pid, set_sInstance.
    repeat (apply logs_only_bind; [logs|intros ?]).
    apply flag_free_event_loop.
  - by destruct (Ho self fuel inbox).
Qed.

Lemma flag_monitor_app (tag : Z) (t : turn) (e1 e2 : list event) :
  flag_monitor tag t (e1 ++ e2)
  = match flag_monitor tag t e1 with
    | Some t' => flag_monitor tag t' e2
    | None => None
    end.
Proof.
  revert t. induction e1 as [|e e1 IH]; intros t; [reflexivity|].
  cbn. destruct (flag_step tag t e); [apply IH|reflexivity].
Qed.

(** Events that leave the flag and the coarse lock alone never make the
    write due, and are accepted whenever it is not. *)
Lemma flag_monitor_free (tag : Z) (evs : list event) (t : turn) :
  Forall (fun e => flag_free e = true) evs ->
  store_due tag t = false ->
  exists t', flag_monitor tag t evs = Some t' /\ store_due tag t' = false.
Proof.
  intros H. revert t. induction H as [|e evs He _ IH]; intros t Ht; [by exists t|].
  cbn [flag_monitor].
  assert (exists t1, flag_step tag t e = Some t1 /\ store_due tag t1 = false)
    as (t1 & -> & Ht1).
  { destruct e as [[] ?|?|[] ?]; cbn in He |- *; try discriminate;
      rewrite Ht; eauto. }
  by apply IH.
Qed.

(** The task worker's [switch] logs the write of 0 alone for a
    tasklet-pending message, and otherwise nothing that touches the flag or
    the coarse lock. *)
Lemma task_switch_flag_place (msg : msg_t) (s s' : state) :
  task_switch ext cfg msg s = Done (tt, s') ->
  exists sw,
    trace s' = trace s ++ sw
    /\ if type msg =? OPENTHREAD_TASK_MSG_TYPE_EVENT
       then sw = [Store loc_otTaskPending 0]
       else Forall (fun e => flag_free e = true) sw.
Proof.
  unfold task_switch.
  destruct (type msg =? OPENTHREAD_TASK_MSG_TYPE_EVENT).
  - run. intros [= <-]. fields. by eexists.
  - revert s s'.
    match goal with
    | |- forall s s', ?m s = Done (tt, s') -> _ =>
        assert (L : logs_only (W:=W) (fun e => flag_free e = true) m)
    end.
    { unfold openthread_get_instance. logs. }
    intros s s' H. exact (L _ _ _ H).
Qed.

Lemma task_iteration_flag_place (fuel : nat) (msg : msg_t) (s s' : state) (t : turn) :
  task_iteration ext cfg fuel msg s = Done (tt, s') ->
  store_due OPENTHREAD_TASK_MSG_TYPE_EVENT t = false ->
  exists new t',
    trace s' = trace s ++ new
    /\ flag_monitor OPENTHREAD_TASK_MSG_TYPE_EVENT t new = Some t'
    /\ store_due OPENTHREAD_TASK_MSG_TYPE_EVENT t' = false.
Proof.
  intros H Ht. unfold task_iteration in H.
  apply bind_Done in H as ([] & s1 & [= <-] & H).
  apply bind_Done in H as (r1 & s2 & [= <- <-] & H).
  apply bind_Done in H as ([] & s3 & H3 & H).
  apply bind_Done in H as ([] & s4 & H4 & H).
  apply bind_Done in H as (r2 & s5 & [= <- <-] & [= <-]).
  apply task_switch_flag_place in H3 as (sw & T3 & P3).
  apply flag_free_drain_tasklets in H4 as (dr & T4 & P4).
  fields_in T3. fields.
  assert (Frest : Forall (fun e => flag_free e = true)
                    (dr ++ [Call openthread_coarse_unlock_buffer_mutex
                              (ext_ret ext openthread_coarse_unlock_buffer_mutex s4)]))
    by (apply Forall_app; split; [exact P4|by constructor]).
  eexists ([Receive msg; Call openthread_coarse_lock_buffer_mutex _] ++ sw
           ++ dr ++ [Call openthread_coarse_unlock_buffer_mutex _]).
  cbn [app flag_monitor flag_step]. rewrite Ht. cbn [store_due].
  destruct (type msg =? OPENTHREAD_TASK_MSG_TYPE_EVENT) eqn:E.
  - subst sw. cbn [app flag_monitor flag_step store_due]. rewrite E. cbn [andb Z.eqb].
    destruct (flag_monitor_free OPENTHREAD_TASK_MSG_TYPE_EVENT _ turn_idle Frest eq_refl)
      as (t' & M & D).
    exists t'. split; [by rewrite T4, T3, <- !app_assoc|]. by split.
  - assert (F : Forall (fun e => flag_free e = true)
                  (sw ++ dr ++ [Call openthread_coarse_unlock_buffer_mutex
                                  (ext_ret ext openthread_coarse_unlock_buffer_mutex s4)]))
      by (apply Forall_app; split; assumption).
    destruct (flag_monitor_free OPENTHREAD_TASK_MSG_TYPE_EVENT _ (turn_locked msg) F)
      as (t' & M & D); [exact E|].
    exists t'. split; [by rewrite T4, T3, <- !app_assoc|]. by split.
Qed.

Lemma task_loop_flag_place (fuel : nat) (inbox : list msg_t) (s s' : state) (t : turn) :
  task_loop ext cfg fuel inbox s = Done (tt, s') ->
  store_due OPENTHREAD_TASK_MSG_TYPE_EVENT t = false ->
  exists new t',
    trace s' = trace s ++ new
    /\ flag_monitor OPENTHREAD_TASK_MSG_TYPE_EVENT t new = Some t'
    /\ store_due OPENTHREAD_TASK_MSG_TYPE_EVENT t' = false.
Proof.
  revert s t. induction inbox as [|msg rest IH]; intros s t H Ht; cbn [task_loop] in H.
  - injection H as <-. exists [], t. by rewrite app_nil_r.
  - apply bind_Done in H as ([] & s1 & H1 & H).
    destruct (task_iteration_flag_place _ _ _ _ _ H1 Ht) as (n1 & t1 & T1 & M1 & D1).
    destruct (IH _ _ H D1) as (n2 & t2 & T2 & M2 & D2).
    exists (n1 ++ n2), t2. split; [by rewrite T2, T1, <- app_assoc|].
    split; [by rewrite flag_monitor_app, M1|exact D2].
Qed.

Lemma operation_flag_place (o : operation) (s s' : state) (r : Z) :
  run_operation ext cfg o s = Done (r, s') ->
  exists new t',
    trace s' = trace s ++ new
    /\ flag_monitor OPENTHREAD_TASK_MSG_TYPE_EVENT turn_idle new = Some t'.
Proof.
  intros H.
  assert (D : (forall self fuel inbox, o <> op_task_thread self fuel inbox)
              \/ exists self fuel inbox, o = op_task_thread self fuel inbox)
    by (destruct o; eauto; left; discriminate).
  destruct D as [D|(self & fuel & inbox & ->)].
  - destruct (flag_free_other_operations o D _ _ _ H) as (new & T & F).
    destruct (flag_monitor_free OPENTHREAD_TASK_MSG_TYPE_EVENT new turn_idle F eq_refl)
      as (t' & M & _).
    by exists new, t'.
  - cbn [run_operation] in H.
    apply bind_Done in H as ([] & s3 & H & [= _ <-]).
    unfold _openthread_task_thread in H.
    apply bind_Done in H as ([] & s1 & [= <-] & H).
    apply bind_Done in H as (r1 & s2 & [= <- <-] & H).
    destruct (task_loop_flag_place _ _ _ _ turn_idle H eq_refl) as (new & t' & T & M & _).
    fields_in T.
    eexists (Call (msg_init_queue _openthread_task_thread_fn OPENTHREAD_TASK_QUEUE_LEN) _
               :: new), t'.
    split; [by rewrite T, <- app_assoc|]. exact M.
Qed.

(** C2 (amended): the only write to [otTaskPending] in this layer is the
    task worker's [otTaskPending = false].  It is made once for each
    tasklet-pending message the task worker takes from its queue, as the
    first thing after the coarse buffer mutex is taken for that message,
    hence before the tasklet drain and before the mutex is released, and
    at no other place; every other operation, the callback
    [otTaskletsSignalPending] included, leaves the flag as it was and stores
    nothing to it. *)
Theorem otTaskPending_only_cleared (o : operation) (s s' : state) (r : Z) :
  run_operation ext cfg o s = Done (r, s') ->
  flag_stores (trace s') = flag_stores (trace s) ++ repeat 0 (clears o)
  /\ otTaskPending s' = match clears o with
                        | O => otTaskPending s
                        | S _ => false
                        end
  /\ exists new t',
       trace s' = trace s ++ new
       /\ flag_monitor OPENTHREAD_TASK_MSG_TYPE_EVENT turn_idle new = Some t'.
Proof.
  intros H. destruct (operation_flag_count _ _ _ _ H) as [C F].
  split; [exact C|]. split; [exact F|]. exact (operation_flag_place _ _ _ _ H).
Qed.

End Properties.

(** * Runs on the sample board *)

Section Runs.

Import Sample.

#[local] Existing Instance consts.

Lemma sample_tags_distinct : tags_distinct.
Proof. unfold tags_distinct. compute_done. Defined.

(** C1, as stated, fails: [thread_create] refuses priority 20 with -22;
    [openthread_event_init] returns [-EINVAL], and the accessor, which
    returned the unset value 0 before the call, returns -22 after it. *)
Lemma failed_event_init_overwrites_pid :
  ext_ret stub (thread_create 0 2048 20 THREAD_CREATE_STACKTEST
                              _openthread_event_thread_fn "ot_event") (boot 0) <= 0
  /\ openthread_get_event_pid (boot 0) = Done (0, boot 0)
  /\ exists s', openthread_event_init stub 0 2048 20 "ot_event" (boot 0)
                = Done (- EINVAL, s')
                /\ openthread_get_event_pid s' = Done (- 22, s')
                /\ _event_pid s' <> _event_pid (boot 0).
Proof.
  split; [vm_compute; discriminate|]. split; [reflexivity|].
  eexists. split; [vm_compute; reflexivity|]. split; [reflexivity|].
  cbn. lia.
Qed.

(** C2, as stated, fails: run from the task worker (pid 4) with the flag
    clear, [otTaskletsSignalPending] posts its message and leaves the flag
    clear. *)
Lemma otTaskletsSignalPending_leaves_flag_clear :
  otTaskPending (boot 0) = false
  /\ exists s', otTaskletsSignalPending stub 4 0 (boot 0) = Done (tt, s')
                /\ otTaskPending s' = false
                /\ flag_stores (trace s') = [].
Proof.
  split; [reflexivity|]. eexists. split; [vm_compute; reflexivity|].
  split; reflexivity.
Qed.

(** C8, as stated, fails: on the FTD build a radio-driver-event message
    whose value is 0 runs the [isr] and nothing else; the counter keeps its
    value 3 and interrupts are never disabled. *)
Lemma netdev_event_with_zero_value_keeps_counter :
  MODULE_OPENTHREAD_FTD ftd = true
  /\ type (netdev_msg 0) = OPENTHREAD_NETDEV_MSG_TYPE_EVENT
  /\ exists s', event_switch stub ftd (netdev_msg 0) (boot 0) = Done (tt, s')
                /\ trace s' = [Call netdev_isr 0]
                /\ pending_irq s' = pending_irq (boot 0).
Proof.
  split; [reflexivity|]. split; [reflexivity|].
  eexists. split; [vm_compute; reflexivity|]. split; reflexivity.
Qed.

(** The theorems above at concrete inputs. *)

Lemma otTaskPending_only_cleared_witness :
  exists s',
    run_operation stub ftd (op_task_thread 4 5 [task_msg; netdev_msg 1]) (flagged 1)
    = Done (0, s')
    /\ flag_stores (trace s')
       = flag_stores (trace (flagged 1))
         ++ repeat 0 (clears (op_task_thread 4 5 [task_msg; netdev_msg 1]))
    /\ otTaskPending s'
       = match clears (op_task_thread 4 5 [task_msg; netdev_msg 1]) with
         | O => otTaskPending (flagged 1)
         | S _ => false
         end
    /\ exists new t',
         trace s' = trace (flagged 1) ++ new
         /\ flag_monitor OPENTHREAD_TASK_MSG_TYPE_EVENT turn_idle new = Some t'.
Proof.
  eexists. split; [vm_compute; reflexivity|].
  apply (otTaskPending_only_cleared stub ftd
           (op_task_thread 4 5 [task_msg; netdev_msg 1]) (flagged 1) _ 0).
  vm_compute. reflexivity.
Defined.

Lemma event_worker_drains_before_receive_witness :
  exists s',
    event_loop stub ftd 5 [retry_msg; job_msg] (boot 2) = Done (tt, s')
    /\ exists dr w' rest,
         drain_run stub 5 (sInstance (boot 2)) (world (boot 2)) = Some (dr, w')
         /\ drained (sInstance (boot 2)) dr
         /\ trace s' = trace (boot 2) ++ dr ++ rest
         /\ quiet_monitor false (dr ++ rest) = Some true.
Proof.
  eexists. split; [vm_compute; reflexivity|].
  apply (event_worker_drains_before_receive stub ftd 5 [retry_msg; job_msg]).
  vm_compute. reflexivity.
Defined.

Lemma task_iteration_lock_discipline_witness :
  tags_distinct
  /\ exists s',
       task_iteration stub ftd 5 (netdev_msg 1) (boot 2) = Done (tt, s')
       /\ exists r1 r2 sw dr,
            trace s' = trace (boot 2)
                       ++ [Receive (netdev_msg 1);
                           Call openthread_coarse_lock_buffer_mutex r1]
                       ++ sw ++ dr
                       ++ [Call openthread_coarse_unlock_buffer_mutex r2]
            /\ drained (sInstance (boot 2)) dr
            /\ List.filter touches_radio dr = []
            /\ (if type (netdev_msg 1) =? OPENTHREAD_NETDEV_MSG_TYPE_EVENT
                then exists a b c, sw = [Call lock_radio_mutex a; Call netdev_isr b;
                                         Call unlock_radio_mutex c]
                else List.filter touches_radio sw = [])
            /\ lock_monitor (true, false) (sw ++ dr) = Some (true, false)
            /\ lock_monitor (false, false)
                 ([Receive (netdev_msg 1);
                   Call openthread_coarse_lock_buffer_mutex r1]
                  ++ sw ++ dr ++ [Call openthread_coarse_unlock_buffer_mutex r2])
               = Some (false, false)
            /\ forallb (fun c => negb (is_coarse_mutex_call c)) (calls (sw ++ dr)) = true
            /\ receives (sw ++ dr) = [].
Proof.
  split; [exact sample_tags_distinct|].
  eexists. split; [vm_compute; reflexivity|].
  apply (task_iteration_lock_discipline stub ftd 5 (netdev_msg 1) (boot 2));
    [exact sample_tags_distinct|vm_compute; reflexivity].
Defined.

Lemma event_job_executes_and_replies_once_witness :
  tags_distinct
  /\ type job_msg = OPENTHREAD_JOB_MSG_TYPE_EVENT
  /\ jobs (boot 0) !! content job_msg = Some echo_job
  /\ exists s' r',
       event_switch stub ftd job_msg (boot 0) = Done (tt, s')
       /\ trace s' = trace (boot 0)
                     ++ [Call (ot_exec_command 0 "echo" 42 0x300) 42;
                         Call (msg_reply job_msg (to_uint32 42)) r']
       /\ replies (trace s') = replies (trace (boot 0)) ++ [(job_msg, to_uint32 42)]
       /\ (0 <= 42 < 2 ^ 32 -> to_uint32 42 = 42).
Proof.
  split; [exact sample_tags_distinct|]. split; [reflexivity|]. split; [reflexivity|].
  exact (event_job_executes_and_replies_once stub ftd job_msg (boot 0) echo_job
           sample_tags_distinct eq_refl eq_refl).
Defined.

Lemma event_serial_feeds_uart_then_frees_witness :
  tags_distinct
  /\ type serial_msg = OPENTHREAD_SERIAL_MSG_TYPE_EVENT
  /\ serial_bufs (boot 0) !! content serial_msg = Some hi_buffer
  /\ exists s',
       event_switch stub ncp serial_msg (boot 0) = Done (tt, s')
       /\ trace s' = trace (boot 0)
                     ++ [Call wdt_clear 0]
                     ++ [Call (otPlatUartReceived [104; 105; 10] 3) 0;
                         Store (loc_serial_buffer_status 0x100) 1]
       /\ serial_bufs (after_call stub (otPlatUartReceived [104; 105; 10] 3)
                                  (after_call stub wdt_clear (boot 0)))
          !! content serial_msg = Some hi_buffer
       /\ serial_bufs s' = <[content serial_msg := with_status 1 hi_buffer]>
                             (serial_bufs (boot 0)).
Proof.
  split; [exact sample_tags_distinct|]. split; [reflexivity|]. split; [reflexivity|].
  exact (event_serial_feeds_uart_then_frees stub ncp serial_msg (boot 0) hi_buffer
           sample_tags_distinct eq_refl eq_refl).
Defined.

Lemma task_reports_tx_outcome_like_event_witness :
  tags_distinct
  /\ (type busy_msg = OPENTHREAD_NETDEV_MSG_TYPE_RADIO_BUSY
      \/ type busy_msg = OPENTHREAD_LINK_RETRY_TIMEOUT)
  /\ openthread_get_instance (boot 0) = Done (sInstance (boot 0), boot 0)
  /\ task_switch stub ftd busy_msg (boot 0) = event_switch stub ftd busy_msg (boot 0)
  /\ event_switch stub ftd busy_msg (boot 0)
     = Done (tt, after_call stub (sent_pkt 0 NETDEV_EVENT_TX_MEDIUM_BUSY) (boot 0)).
Proof.
  split; [exact sample_tags_distinct|]. split; [left; reflexivity|].
  exact (task_reports_tx_outcome_like_event stub ftd busy_msg (boot 0)
           sample_tags_distinct (or_introl eq_refl)).
Defined.

Lemma event_netdev_isr_and_guarded_decrement_witness :
  tags_distinct
  /\ type (netdev_msg 1) = OPENTHREAD_NETDEV_MSG_TYPE_EVENT
  /\ exists s' r,
       event_switch stub ftd (netdev_msg 1) (boot 0) = Done (tt, s')
       /\ trace s' = trace (boot 0)
                     ++ [Call netdev_isr 0; Call irq_disable 1;
                         Store loc_pending_irq 2; Call (irq_restore 1) r]
       /\ pending_irq s' = 2.
Proof.
  split; [exact sample_tags_distinct|]. split; [reflexivity|].
  exact (event_netdev_isr_and_guarded_decrement stub ftd (netdev_msg 1) (boot 0)
           sample_tags_distinct eq_refl).
Defined.

Lemma unmatched_tag_is_ignored_witness :
  (type stray_msg ∉ event_tags ftd)
  /\ event_switch stub ftd stray_msg (boot 1) = Done (tt, boot 1)
  /\ task_switch stub ftd stray_msg (boot 1) = Done (tt, boot 1)
  /\ event_loop stub ftd 5 [stray_msg; retry_msg] (boot 1)
     = bind (drain_tasklets stub 5)
         (fun _ => bind (msg_receive stray_msg)
         (fun _ => event_loop stub ftd 5 [retry_msg])) (boot 1)
  /\ task_loop stub ftd 5 [stray_msg; retry_msg] (boot 1)
     = bind (msg_receive stray_msg)
         (fun _ => bind (do_call stub openthread_coarse_lock_buffer_mutex)
         (fun _ => bind (drain_tasklets stub 5)
         (fun _ => bind (do_call stub openthread_coarse_unlock_buffer_mutex)
         (fun _ => task_loop stub ftd 5 [retry_msg])))) (boot 1).
Proof.
  assert (H : type stray_msg ∉ event_tags ftd) by compute_done.
  split; [exact H|].
  exact (unmatched_tag_is_ignored stub ftd 5 stray_msg [retry_msg] (boot 1) H).
Defined.

(** The further properties at concrete inputs. *)

Lemma event_thread_startup_sequence_witness :
  exists s',
    _openthread_event_thread stub ncp 5 5 [retry_msg] (boot 0) = Done (tt, s')
    /\ exists s0 evs,
         event_loop stub ncp 5 [retry_msg] s0 = Done (tt, s')
         /\ trace s0 = trace (boot 0) ++ evs
         /\ calls evs = startup_calls ncp (sInstance s0)
         /\ In (Call otInstanceInitSingle (sInstance s0)) evs
         /\ receives evs = []
         /\ _event_pid s0 = 5.
Proof.
  eexists. split; [vm_compute; reflexivity|].
  apply (event_thread_startup_sequence stub ncp 5 5 [retry_msg] (boot 0)).
  vm_compute. reflexivity.
Defined.

Lemma event_thread_single_instance_witness :
  exists s',
    _openthread_event_thread stub ftd 5 5 mixed_inbox (boot 1) = Done (tt, s')
    /\ exists r1 r2 later,
         trace s' = trace (boot 1)
                    ++ [Call (msg_init_queue _openthread_event_thread_fn
                                             OPENTHREAD_EVENT_QUEUE_LEN) r1;
                        Call (xtimer_usleep 100000) r2;
                        Call otInstanceInitSingle (sInstance s')]
                    ++ later
         /\ forallb (uses_instance (sInstance s')) later = true
         /\ receives later = mixed_inbox
         /\ _event_pid s' = 5.
Proof.
  eexists. split; [vm_compute; reflexivity|].
  apply (event_thread_single_instance stub ftd 5 5 mixed_inbox (boot 1)).
  vm_compute. reflexivity.
Defined.

Lemma task_thread_run_witness :
  exists s',
    _openthread_task_thread stub ftd 4 5 [task_msg; netdev_msg 1; job_msg] (boot 1)
    = Done (tt, s')
    /\ exists r evs,
         trace s' = trace (boot 1)
                    ++ Call (msg_init_queue _openthread_task_thread_fn
                                            OPENTHREAD_TASK_QUEUE_LEN) r :: evs
         /\ forallb (task_loop_event (sInstance (boot 1))) evs = true
         /\ forallb (uses_instance (sInstance (boot 1))) evs = true
         /\ receives evs = [task_msg; netdev_msg 1; job_msg]
         /\ _ot_task_pid s' = 4
         /\ sInstance s' = sInstance (boot 1)
         /\ _event_pid s' = _event_pid (boot 1)
         /\ serial_bufs s' = serial_bufs (boot 1)
         /\ jobs s' = jobs (boot 1)
         /\ pending_irq s' = pending_irq (boot 1).
Proof.
  eexists. split; [vm_compute; reflexivity|].
  apply (task_thread_run stub ftd 4 5 [task_msg; netdev_msg 1; job_msg] (boot 1)).
  vm_compute. reflexivity.
Defined.

Lemma signal_pending_after_event_thread_witness :
  exists s',
    _openthread_event_thread stub ftd 5 5 [retry_msg] (boot 0) = Done (tt, s')
    /\ 4 <> 5
    /\ otTaskletsSignalPending stub 5 0 s' = Done (tt, s')
    /\ otTaskletsSignalPending stub 4 0 s'
       = Done (tt, after_call stub (msg_send OPENTHREAD_TASK_MSG_TYPE_EVENT 5) s').
Proof.
  eexists. split; [vm_compute; reflexivity|]. split; [lia|].
  apply (signal_pending_after_event_thread stub ftd 5 4 0 5 [retry_msg] (boot 0));
    [vm_compute; reflexivity|lia].
Defined.

Lemma event_loop_keeps_statics_witness :
  exists s',
    event_loop stub ftd 5 mixed_inbox (boot 1) = Done (tt, s')
    /\ _event_pid s' = _event_pid (boot 1)
    /\ sInstance s' = sInstance (boot 1)
    /\ _ot_task_pid s' = _ot_task_pid (boot 1)
    /\ otTaskPending s' = otTaskPending (boot 1)
    /\ jobs s' = jobs (boot 1)
    /\ forall q, payload <$> (serial_bufs s' !! q)
                 = payload <$> (serial_bufs (boot 1) !! q).
Proof.
  eexists. split; [vm_compute; reflexivity|].
  apply (event_loop_keeps_statics stub ftd 5 mixed_inbox (boot 1)).
  vm_compute. reflexivity.
Defined.

Lemma event_loop_permitted_events_witness :
  exists s',
    event_loop stub ftd 5 mixed_inbox (boot 1) = Done (tt, s')
    /\ exists evs,
         trace s' = trace (boot 1) ++ evs
         /\ forallb (event_loop_event (sInstance (boot 1))) evs = true
         /\ receives evs = mixed_inbox
         /\ forallb (fun c => negb (is_mutex_call c)) (calls evs) = true
         /\ flag_stores evs = [].
Proof.
  eexists. split; [vm_compute; reflexivity|].
  apply (event_loop_permitted_events stub ftd 5 mixed_inbox (boot 1)).
  vm_compute. reflexivity.
Defined.

Lemma task_loop_never_replies_witness :
  exists s',
    task_loop stub ftd 5 mixed_inbox (boot 1) = Done (tt, s')
    /\ exists evs,
         trace s' = trace (boot 1) ++ evs
         /\ forallb (task_loop_event (sInstance (boot 1))) evs = true
         /\ receives evs = mixed_inbox
         /\ replies evs = []
         /\ pending_irq s' = pending_irq (boot 1).
Proof.
  eexists. split; [vm_compute; reflexivity|].
  apply (task_loop_never_replies stub ftd 5 mixed_inbox (boot 1)).
  vm_compute. reflexivity.
Defined.

Lemma event_loop_replies_to_jobs_witness :
  tags_distinct
  /\ exists s',
       event_loop stub ftd 5 mixed_inbox (boot 1) = Done (tt, s')
       /\ exists rs, replies (trace s') = replies (trace (boot 1)) ++ rs
                     /\ rs.*1 = job_requests mixed_inbox.
Proof.
  split; [exact sample_tags_distinct|].
  eexists. split; [vm_compute; reflexivity|].
  apply (event_loop_replies_to_jobs stub ftd 5 mixed_inbox (boot 1));
    [exact sample_tags_distinct|vm_compute; reflexivity].
Defined.


Lemma task_ignores_event_only_tags_witness :
  tags_distinct
  /\ (type job_msg = OPENTHREAD_MILLITIMER_MSG_TYPE_EVENT
      \/ type job_msg = OPENTHREAD_SERIAL_MSG_TYPE_EVENT
      \/ type job_msg = OPENTHREAD_JOB_MSG_TYPE_EVENT)
  /\ task_switch stub ftd job_msg (boot 1) = Done (tt, boot 1)
  /\ task_iteration stub ftd 5 job_msg (boot 1)
     = bind (msg_receive job_msg)
         (fun _ => bind (do_call stub openthread_coarse_lock_buffer_mutex)
         (fun _ => bind (drain_tasklets stub 5)
         (fun _ => bind (do_call stub openthread_coarse_unlock_buffer_mutex)
         (fun _ => ret tt)))) (boot 1).
Proof.
  split; [exact sample_tags_distinct|]. split; [right; right; reflexivity|].
  exact (task_ignores_event_only_tags stub ftd 5 job_msg (boot 1)
           sample_tags_distinct (or_intror (or_intror eq_refl))).
Defined.

Lemma microtimer_in_both_workers_witness :
  tags_distinct
  /\ type micro_msg = OPENTHREAD_MICROTIMER_MSG_TYPE_EVENT
  /\ task_switch stub ftd micro_msg (boot 0) = event_switch stub ftd micro_msg (boot 0)
  /\ event_switch stub ftd micro_msg (boot 0)
     = Done (tt, if MODULE_OPENTHREAD_FTD ftd
                 then after_call stub (otPlatAlarmMicroFired (sInstance (boot 0))) (boot 0)
                 else boot 0).
Proof.
  split; [exact sample_tags_distinct|]. split; [reflexivity|].
  exact (microtimer_in_both_workers stub ftd micro_msg (boot 0)
           sample_tags_distinct eq_refl).
Defined.

Lemma drain_without_pending_is_one_check_witness :
  ext_ret stub (otTaskletsArePending (sInstance (boot 0))) (boot 0) = 0
  /\ drain_tasklets stub 1 (boot 0)
     = Done (tt, after_call stub (otTaskletsArePending (sInstance (boot 0))) (boot 0)).
Proof.
  split; [reflexivity|].
  exact (drain_without_pending_is_one_check stub 0 (boot 0) eq_refl).
Defined.

Lemma drain_exact_rounds_witness :
  quiesces_after stub 2 (sInstance (boot 2)) (world (boot 2))
  /\ exists dr w',
       (forall fuel, (2 < fuel)%nat ->
          drain_tasklets stub fuel (boot 2)
          = Done (tt, with_world (boot 2) w' (trace (boot 2) ++ dr)))
       /\ calls dr
          = concat (repeat [otTaskletsArePending (sInstance (boot 2));
                            otTaskletsProcess (sInstance (boot 2))] 2)
            ++ [otTaskletsArePending (sInstance (boot 2))].
Proof.
  assert (H : quiesces_after stub 2 (sInstance (boot 2)) (world (boot 2)))
    by (cbn; lia).
  split; [exact H|]. exact (drain_exact_rounds stub 2 (boot 2) H).
Defined.

Lemma drain_starves_workers_witness :
  (forall w, (busy_stub (otTaskletsArePending (sInstance (boot 0))) w).1 <> 0)
  /\ drain_tasklets busy_stub 9 (boot 0) = OutOfFuel
  /\ event_loop busy_stub ftd 9 [retry_msg] (boot 0) = OutOfFuel
  /\ task_iteration busy_stub ftd 9 retry_msg (boot 0) = OutOfFuel.
Proof.
  assert (H : forall w, (busy_stub (otTaskletsArePending (sInstance (boot 0))) w).1 <> 0)
    by (intros w; cbn; lia).
  split; [exact H|].
  exact (drain_starves_workers busy_stub ftd 9 retry_msg [retry_msg] (boot 0) H).
Defined.

Lemma serial_message_replayed_witness :
  tags_distinct
  /\ type serial_msg = OPENTHREAD_SERIAL_MSG_TYPE_EVENT
  /\ serial_bufs (boot 0) !! content serial_msg = Some hi_buffer
  /\ exists s1 s2 pre r,
       event_switch stub ncp serial_msg (boot 0) = Done (tt, s1)
       /\ serial_buffer_status <$> (serial_bufs s1 !! content serial_msg)
          = Some OPENTHREAD_SERIAL_BUFFER_STATUS_FREE
       /\ event_switch stub ncp serial_msg s1 = Done (tt, s2)
       /\ trace s2 = trace s1 ++ pre
                     ++ [Call (otPlatUartReceived (buf hi_buffer) (length hi_buffer)) r;
                         Store (loc_serial_buffer_status (content serial_msg))
                               OPENTHREAD_SERIAL_BUFFER_STATUS_FREE]
       /\ calls pre = (if MODULE_OPENTHREAD_NCP_FTD ncp then [wdt_clear] else [])
       /\ serial_bufs s2 = serial_bufs s1.
Proof.
  split; [exact sample_tags_distinct|]. split; [reflexivity|]. split; [reflexivity|].
  exact (serial_message_replayed stub ncp serial_msg (boot 0) hi_buffer
           sample_tags_distinct eq_refl eq_refl).
Defined.

Lemma task_loop_lock_discipline_witness :
  tags_distinct
  /\ exists s',
       task_loop stub ftd 5 mixed_inbox (boot 1) = Done (tt, s')
       /\ exists new, trace s' = trace (boot 1) ++ new
                      /\ lock_monitor (false, false) new = Some (false, false).
Proof.
  split; [exact sample_tags_distinct|].
  eexists. split; [vm_compute; reflexivity|].
  apply (task_loop_lock_discipline stub ftd 5 mixed_inbox (boot 1));
    [exact sample_tags_distinct|vm_compute; reflexivity].
Defined.

End Runs.
